(** * Offline layer of the trading platform: service worker and data worker

    A shallow embedding of the service worker (install / activate / fetch /
    background sync) and of the data-processing web worker
    ([src/workers/dataProcessor.js]), with the properties checked against
    them.

    JavaScript numbers are IEEE-754 binary64 values and are modelled by
    Rocq's primitive floats.  Asynchronous functions are modelled by a state
    and exception monad over an explicit worker-global state: the cache
    storage and the trace of observable effects (console output, network
    calls, cache operations, lifecycle calls). *)

From Stdlib Require Import Floats ZArith.
From stdpp Require Import gmap strings list pretty.

(** ** JavaScript completions *)

Inductive JSError :=
| TypeError (msg : string)
| Error (msg : string).

Definition error_message (e : JSError) : string :=
  match e with TypeError m => m | Error m => m end.

(** Normal completion (a returned value, a fulfilled promise) or abrupt
    completion (a thrown error, a rejected promise). *)
Inductive Completion (A : Type) :=
| Normal (a : A)
| Throw (e : JSError).
Arguments Normal {A} a.
Arguments Throw {A} e.

(** ** String methods used by the workers *)

Definition startsWith (s p : string) : bool := String.prefix p s.

Definition endsWith (s p : string) : bool :=
  let n := String.length s in
  let k := String.length p in
  if decide (k ≤ n) then String.eqb (String.substring (n - k) k s) p else false.

Definition includes (s p : string) : bool :=
  match String.index 0 p s with Some _ => true | None => false end.

(** * The service worker *)

Module SW.

(** ** HTTP values *)

Record URL := mkURL { origin : string; pathname : string; search : string }.

Definition href (u : URL) : string := origin u +:+ pathname u +:+ search u.

(** [Headers]: names are stored lower-cased by the platform; [get] answers
    [null] ([None]) when the name is absent. *)
Definition Headers := list (string * string).

Fixpoint headers_get (name : string) (h : Headers) : option string :=
  match h with
  | [] => None
  | (n, v) :: rest => if String.eqb n name then Some v else headers_get name rest
  end.

Record Request := mkRequest {
  req_method : string;
  req_url : URL;
  req_headers : Headers;
  req_body : option string }.

(** ** JSON, as far as [JSON.stringify] is used *)

Inductive JSONScalar :=
| JBool (b : bool)
| JString (s : string).

(** An object literal whose properties hold scalars, in property order. *)
Definition JSON := list (string * JSONScalar).

Inductive Body :=
| BodyText (s : string)
| BodyJSON (v : JSON).   (* JSON.stringify(v) *)

Record Response := mkResponse {
  resp_status : Z;
  resp_statusText : string;
  resp_headers : Headers;
  resp_body : Body }.

(** [response.ok]: the status is in the range 200-299. *)
Definition ok (r : Response) : bool :=
  (200 <=? resp_status r)%Z && (resp_status r <=? 299)%Z.

(** Result of [fetch]: the promise fulfils with a response of any status, or
    rejects (network unreachable). *)
Inductive FetchResult :=
| NetResponse (r : Response)
| NetFailure (e : JSError).

(** ** Deferred actions *)

Record Action := mkAction {
  action_id : nat;
  action_url : URL;
  action_method : string;
  action_headers : Headers;
  action_body : option string }.

(** ** Cache storage

    [caches] is an ordered collection of named caches (creation order, which
    is the order of [caches.keys()] and the search order of
    [caches.match]); a cache maps a request identity, the URL of a GET
    request, to a response snapshot. *)

Abbreviation Cache := (gmap string Response).
Abbreviation CacheStorage := (list (string * Cache)).

Definition caches_has (name : string) (cs : CacheStorage) : bool :=
  bool_decide (name ∈ cs.*1).

Definition caches_open (name : string) (cs : CacheStorage) : CacheStorage :=
  if caches_has name cs then cs else cs ++ [(name, ∅)].

Definition caches_keys (cs : CacheStorage) : list string := cs.*1.

Definition caches_delete (name : string) (cs : CacheStorage) : CacheStorage :=
  filter (λ p, p.1 ≠ name) cs.

Fixpoint cache_lookup (name : string) (cs : CacheStorage) : option Cache :=
  match cs with
  | [] => None
  | (n, c) :: rest => if decide (n = name) then Some c else cache_lookup name rest
  end.

(** [cache.match(request)] on the cache called [name]. *)
Definition cache_match (name key : string) (cs : CacheStorage) : option Response :=
  c ← cache_lookup name cs; c !! key.

(** [caches.match(request)]: the first cache, in order, holding the key. *)
Fixpoint caches_match (key : string) (cs : CacheStorage) : option Response :=
  match cs with
  | [] => None
  | (_, c) :: rest =>
      match c !! key with
      | Some r => Some r
      | None => caches_match key rest
      end
  end.

(** [cache.put(request, response)] on the cache called [name]: any earlier
    snapshot under the key is replaced. *)
Definition cache_put (name key : string) (r : Response) (cs : CacheStorage)
  : CacheStorage :=
  (λ p, if decide (p.1 = name) then (p.1, <[key := r]> p.2) else p) <$> cs.

(** ** Worker state and observable effects *)

Inductive LogArg :=
| ArgString (s : string)
| ArgError (e : JSError)
| ArgAction (a : Action)
| ArgId (n : nat).

Inductive Event :=
| ConsoleLog (msg : string) (args : list LogArg)
| ConsoleError (msg : string) (args : list LogArg)
| NetFetch (r : Request)                      (* fetch(request) issued *)
| CacheLookup (tier : option string) (key : string)
| CachePut (tier key : string)
| CacheDelete (name : string)
| SkipWaiting                                 (* self.skipWaiting() *)
| ClientsClaim                                (* self.clients.claim() *)
| RespondWith (r : option Response).          (* the promise given to
                                                 event.respondWith settles *)

Record World := mkWorld {
  caches : CacheStorage;
  trace : list Event }.

(** ** The monad of asynchronous worker code *)

Definition Task (A : Type) : Type := World → Completion A * World.

Definition ret {A} (a : A) : Task A := λ w, (Normal a, w).

Definition throw {A} (e : JSError) : Task A := λ w, (Throw e, w).

Definition bind {A B} (m : Task A) (k : A → Task B) : Task B :=
  λ w, match m w with
       | (Normal a, w') => k a w'
       | (Throw e, w') => (Throw e, w')
       end.

(** [try { m } catch (error) { h error }] *)
Definition try_catch {A} (m : Task A) (h : JSError → Task A) : Task A :=
  λ w, match m w with
       | (Normal a, w') => (Normal a, w')
       | (Throw e, w') => h e w'
       end.

Declare Scope task_scope.
Delimit Scope task_scope with task.
Bind Scope task_scope with Task.
Notation "'let!' x ':=' m 'in' k" := (bind m (λ x, k))
  (at level 10, x name, k at level 200) : task_scope.
Notation "m ;; k" := (bind m (λ _, k))
  (at level 100, right associativity) : task_scope.
Local Open Scope task_scope.

Definition emit (e : Event) : Task unit :=
  λ w, (Normal tt, mkWorld (caches w) (trace w ++ [e])).

Definition update_caches (f : CacheStorage → CacheStorage) : Task unit :=
  λ w, (Normal tt, mkWorld (f (caches w)) (trace w)).

Definition read_caches {A} (f : CacheStorage → A) : Task A :=
  λ w, (Normal (f (caches w)), w).

Definition when (b : bool) (m : Task unit) : Task unit :=
  if b then m else ret tt.

Definition console_log (msg : string) (args : list LogArg) : Task unit :=
  emit (ConsoleLog msg args).

Definition console_error (msg : string) (args : list LogArg) : Task unit :=
  emit (ConsoleError msg args).

(** ** Constants of the worker *)

Definition STATIC_CACHE : string := "static-v1".
Definition API_CACHE : string := "api-v1".
Definition DYNAMIC_CACHE : string := "dynamic-v1".

Definition STATIC_ASSETS : list string :=
  [ "/"; "/index.html"; "/static/js/bundle.js"; "/static/css/main.css";
    "/manifest.json"; "/favicon.ico" ].

Definition CRITICAL_APIS : list string :=
  [ "/api/stocks/market-status"; "/api/stocks/market-overview";
    "/api/stocks/top-gainers"; "/api/stocks/top-losers";
    "/api/stocks/market-index" ].

(** Alternatives of the regular expression in [isStaticAsset]. *)
Definition STATIC_EXTENSIONS : list string :=
  [ "js"; "css"; "png"; "jpg"; "jpeg"; "gif"; "svg"; "ico"; "woff"; "woff2";
    "ttf"; "eot" ].

(** ** The worker, over its environment *)

Section Worker.

(** Origin of the worker's scope, against which the manifest paths are
    resolved. *)
Variable self_origin : string.

(** The network: how each request issued during the run is answered. *)
Variable network : Request → FetchResult.

(** *** Platform operations *)

Definition request_key (request : Request) : string := href (req_url request).

Definition fetch_settle (request : Request) : Task Response :=
  match network request with
  | NetResponse r => ret r
  | NetFailure e => throw e
  end.

(** [await fetch(request)] *)
Definition fetch (request : Request) : Task Response :=
  emit (NetFetch request) ;; fetch_settle request.

Definition caches_open_task (name : string) : Task string :=
  update_caches (caches_open name) ;; ret name.

Definition caches_match_task (request : Request) : Task (option Response) :=
  emit (CacheLookup None (request_key request)) ;;
  read_caches (caches_match (request_key request)).

Definition cache_match_task (cache : string) (request : Request)
  : Task (option Response) :=
  emit (CacheLookup (Some cache) (request_key request)) ;;
  read_caches (cache_match cache (request_key request)).

(** [cache.put(request, response.clone())].  The worker never awaits this
    call; the write is taken to happen where the call is made. *)
Definition cache_put_task (cache : string) (request : Request) (r : Response)
  : Task unit :=
  emit (CachePut cache (request_key request)) ;;
  update_caches (cache_put cache (request_key request) r).

Definition caches_keys_task : Task (list string) := read_caches caches_keys.

Definition caches_delete_task (name : string) : Task unit :=
  emit (CacheDelete name) ;; update_caches (caches_delete name).

Fixpoint for_each {A} (f : A → Task unit) (l : list A) : Task unit :=
  match l with
  | [] => ret tt
  | x :: rest => f x ;; for_each f rest
  end.

Definition asset_request (path : string) : Request :=
  mkRequest "GET" (mkURL self_origin path "") [] None.

(** Responses of a batch of requests, when every one of them is answered
    with a 2xx response. *)
Fixpoint all_ok (rs : list Request) : option (list (Request * Response)) :=
  match rs with
  | [] => Some []
  | r :: rest =>
      match network r with
      | NetResponse resp =>
          if ok resp then (λ l, (r, resp) :: l) <$> all_ok rest else None
      | NetFailure _ => None
      end
  end.

(** [cache.addAll(urls)]: every URL is requested; the promise rejects with
    a [TypeError], storing nothing, unless every request is answered with a
    2xx response, in which case all the responses are stored. *)
Definition cache_addAll (cache : string) (urls : list string) : Task unit :=
  let rs := asset_request <$> urls in
  for_each (λ r, emit (NetFetch r)) rs ;;
  match all_ok rs with
  | Some l => for_each (λ p, cache_put_task cache p.1 p.2) l
  | None => throw (TypeError "Request failed")
  end.

Definition skipWaiting : Task unit := emit SkipWaiting.
Definition clients_claim : Task unit := emit ClientsClaim.

(** *** install *)

(** The promise handed to [event.waitUntil]: the install succeeds when it
    fulfils and fails when it rejects. *)
Definition onInstall : Task unit :=
  console_log "Service Worker installing..." [] ;;
  try_catch
    (let! cache := caches_open_task STATIC_CACHE in
     console_log "Caching static assets" [] ;;
     cache_addAll cache STATIC_ASSETS ;;
     console_log "Static assets cached successfully" [] ;;
     skipWaiting)
    (λ error, console_error "Failed to cache static assets:" [ArgError error]).

(** *** activate *)

Definition is_current (cacheName : string) : bool :=
  bool_decide (cacheName = STATIC_CACHE)
  || bool_decide (cacheName = API_CACHE)
  || bool_decide (cacheName = DYNAMIC_CACHE).

Definition onActivate : Task unit :=
  console_log "Service Worker activating..." [] ;;
  let! cacheNames := caches_keys_task in
  for_each
    (λ cacheName,
       when (bool_decide (cacheName ≠ STATIC_CACHE)
             && bool_decide (cacheName ≠ API_CACHE)
             && bool_decide (cacheName ≠ DYNAMIC_CACHE))
         (console_log "Deleting old cache:" [ArgString cacheName] ;;
          caches_delete_task cacheName))
    cacheNames ;;
  console_log "Service Worker activated" [] ;;
  clients_claim.

(** *** Request predicates *)

Definition isStaticAsset (request : Request) : bool :=
  existsb (λ ext, endsWith (pathname (req_url request)) ("." +:+ ext))
          STATIC_EXTENSIONS.

Definition isAPIRequest (request : Request) : bool :=
  startsWith (pathname (req_url request)) "/api/".

(** [request.headers.get('accept').includes('text/html')]: [get] answers
    [null] for an absent header, and the method call on [null] throws. *)
Definition isHTMLRequest (request : Request) : Completion bool :=
  match headers_get "accept" (req_headers request) with
  | Some accept => Normal (includes accept "text/html")
  | None => Throw (TypeError "Cannot read properties of null (reading 'includes')")
  end.

Definition isCriticalAPI (request : Request) : bool :=
  existsb (λ api, startsWith (pathname (req_url request)) api) CRITICAL_APIS.

(** *** Strategies *)

Definition offlineResponse : Response :=
  mkResponse 503 "Service Unavailable" [] (BodyText "Offline - Resource not available").

Definition offlineJSONResponse : Response :=
  mkResponse 503 "" [("content-type", "application/json")]
    (BodyJSON [ ("success", JBool false);
                ("message", JString "Offline - Data not available");
                ("offline", JBool true) ]).

Definition cacheFirst (request : Request) : Task Response :=
  try_catch
    (let! cachedResponse := caches_match_task request in
     match cachedResponse with
     | Some cached => ret cached
     | None =>
         let! networkResponse := fetch request in
         when (ok networkResponse)
           (let! cache := caches_open_task STATIC_CACHE in
            cache_put_task cache request networkResponse) ;;
         ret networkResponse
     end)
    (λ error,
       console_error "Cache first strategy failed:" [ArgError error] ;;
       ret offlineResponse).

Definition networkFirst (request : Request) : Task Response :=
  try_catch
    (let! networkResponse := fetch request in
     when (ok networkResponse)
       (let! cache := caches_open_task API_CACHE in
        cache_put_task cache request networkResponse) ;;
     ret networkResponse)
    (λ error,
       console_log "Network failed, trying cache:" [ArgError error] ;;
       let! cachedResponse := caches_match_task request in
       match cachedResponse with
       | Some cached => ret cached
       | None =>
           if isCriticalAPI request then ret offlineJSONResponse
           else ret offlineResponse
       end).

(** What [staleWhileRevalidate] has in hand at its [return]: the snapshot
    read from the dynamic tier ([None] for [undefined]) and the promise
    [fetchPromise], whose fetch has been issued and whose callbacks run when
    the fetch settles.  The function returns
    [cachedResponse || fetchPromise]. *)
Record Revalidation := mkRevalidation {
  cachedResponse : option Response;
  fetchPromise : Task (option Response) }.

Definition staleWhileRevalidate (request : Request) : Task Revalidation :=
  let! cache := caches_open_task DYNAMIC_CACHE in
  let! cachedResponse := cache_match_task cache request in
  emit (NetFetch request) ;;
  ret (mkRevalidation cachedResponse
         (try_catch
            (let! networkResponse := fetch_settle request in
             when (ok networkResponse)
               (cache_put_task cache request networkResponse) ;;
             ret (Some networkResponse))
            (λ _, ret cachedResponse))).

(** *** fetch *)

Inductive Handling :=
| PassThrough                          (* respondWith is not called *)
| Responded (r : option Response).     (* value the page receives *)

(** [event.respondWith(promise)] for a strategy that settles as a whole. *)
Definition respondWith (strategy : Task Response) : Task Handling :=
  let! r := strategy in
  emit (RespondWith (Some r)) ;; ret (Responded (Some r)).

(** [event.respondWith(cachedResponse || fetchPromise)]: with a snapshot
    the page is answered at once and the callbacks of [fetchPromise] run
    afterwards; without one the page receives what [fetchPromise] settles
    to. *)
Definition respondWithRevalidation (strategy : Task Revalidation) : Task Handling :=
  let! r := strategy in
  match cachedResponse r with
  | Some cached =>
      emit (RespondWith (Some cached)) ;;
      fetchPromise r ;;
      ret (Responded (Some cached))
  | None =>
      let! settled := fetchPromise r in
      emit (RespondWith settled) ;; ret (Responded settled)
  end.

Definition lift {A} (c : Completion A) : Task A := λ w, (c, w).

Definition onFetch (request : Request) : Task Handling :=
  if negb (String.eqb (req_method request) "GET") then ret PassThrough
  else if isStaticAsset request then respondWith (cacheFirst request)
  else if isAPIRequest request then respondWith (networkFirst request)
  else
    let! html := lift (isHTMLRequest request) in
    if html then respondWithRevalidation (staleWhileRevalidate request)
    else respondWith (networkFirst request).

(** The policy the listener applies, in its order of tests: [None] for a
    request it leaves alone. *)
Inductive Policy := CacheFirst | NetworkFirst | StaleWhileRevalidate.

Definition classify (request : Request) : Completion (option Policy) :=
  if negb (String.eqb (req_method request) "GET") then Normal None
  else if isStaticAsset request then Normal (Some CacheFirst)
  else if isAPIRequest request then Normal (Some NetworkFirst)
  else
    match isHTMLRequest request with
    | Normal true => Normal (Some StaleWhileRevalidate)
    | Normal false => Normal (Some NetworkFirst)
    | Throw e => Throw e
    end.

(** *** Background sync *)

Definition getPendingActions : Task (list Action) := ret [].

Definition action_request (action : Action) : Request :=
  mkRequest (action_method action) (action_url action)
            (action_headers action) (action_body action).

Definition syncAction (action : Action) : Task Response :=
  let! response := fetch (action_request action) in
  if negb (ok response)
  then throw (Error ("Sync failed: " +:+ pretty (resp_status response)))
  else ret response.

Definition removePendingAction (actionId : nat) : Task unit :=
  console_log "Removing pending action:" [ArgId actionId].

(** The [for ... of] loop of [doBackgroundSync]. *)
Definition syncAll (pendingActions : list Action) : Task unit :=
  for_each
    (λ action,
       try_catch
         (syncAction action ;; removePendingAction (action_id action))
         (λ error,
            console_error "Failed to sync action:" [ArgAction action; ArgError error]))
    pendingActions.

Definition doBackgroundSync : Task unit :=
  try_catch
    (let! pendingActions := getPendingActions in
     syncAll pendingActions ;;
     console_log "Background sync completed" [])
    (λ error, console_error "Background sync failed:" [ArgError error]).

End Worker.

(** ** Reading the trace of a run *)

(** The network calls made, in order. *)
Definition fetched (t : list Event) : list Request :=
  omap (λ e, match e with NetFetch r => Some r | _ => None end) t.

(** The identifiers [removePendingAction] was called with, in order. *)
Definition removals (t : list Event) : list nat :=
  omap (λ e, match e with
             | ConsoleLog msg [ArgId n] =>
                 if decide (msg = "Removing pending action:") then Some n else None
             | _ => None
             end) t.

(** The current tier names, against which [activate] tests each name. *)
Definition REGISTRY : list string := [STATIC_CACHE; API_CACHE; DYNAMIC_CACHE].

(** The events of [activate] between its two log lines: one log line and one
    [caches.delete] for each stale name, in the order of [caches.keys()]. *)
Definition deletion_events (names : list string) : list Event :=
  names ≫= λ name,
    if is_current name then []
    else [ConsoleLog "Deleting old cache:" [ArgString name]; CacheDelete name].

(** Whether the network answers a request with a 2xx response. *)
Definition answered_ok (network : Request → FetchResult) (request : Request) : bool :=
  match network request with
  | NetResponse r => ok r
  | NetFailure _ => false
  end.

(** The error with which [syncAction] rejects when the replay does not
    succeed. *)
Definition sync_error (network : Request → FetchResult) (action : Action) : JSError :=
  match network (action_request action) with
  | NetResponse r => Error ("Sync failed: " +:+ pretty (resp_status r))
  | NetFailure e => e
  end.

(** The events of one turn of the replay loop: the network call, then the
    call of [removePendingAction] when the replay succeeded and the error
    log when it did not. *)
Definition replay_events (network : Request → FetchResult) (action : Action)
  : list Event :=
  NetFetch (action_request action)
  :: (if answered_ok network (action_request action)
      then [ConsoleLog "Removing pending action:" [ArgId (action_id action)]]
      else [ConsoleError "Failed to sync action:"
              [ArgAction action; ArgError (sync_error network action)]]).

(** Modelled from the spec: the durable queue of deferred actions, which the
    worker leaves to IndexedDB ([getPendingActions] answers an empty list
    and [removePendingAction] only logs its argument).  An action leaves the
    queue when [removePendingAction] is called with its identifier. *)
Definition queue_after (queue : list Action) (t : list Event) : list Action :=
  filter (λ a, action_id a ∉ removals t) queue.

(** ** Sample environments *)

Definition sample_origin : string := "https://app.example".

Definition sample_get (path : string) (headers : Headers) : Request :=
  mkRequest "GET" (mkURL sample_origin path "") headers None.

Definition response_200 : Response := mkResponse 200 "OK" [] (BodyText "fresh").
Definition response_500 : Response :=
  mkResponse 500 "Internal Server Error" [] (BodyText "").
Definition snapshot_200 : Response := mkResponse 200 "OK" [] (BodyText "stale").

Definition network_up : Request → FetchResult := λ _, NetResponse response_200.
Definition network_error_status : Request → FetchResult :=
  λ _, NetResponse response_500.
Definition network_down : Request → FetchResult :=
  λ _, NetFailure (TypeError "Failed to fetch").

(** Every request is answered except the one for the icon. *)
Definition network_without_icon : Request → FetchResult :=
  λ r, if String.eqb (pathname (req_url r)) "/favicon.ico"
       then NetFailure (TypeError "Failed to fetch")
       else NetResponse response_200.

Definition empty_world : World := mkWorld [] [].

(** The world after a first request for the script has been answered: the
    static tier holds the script, written by [cacheFirst], and nothing
    else. *)
Definition world_with_script : World :=
  (onFetch network_up (sample_get "/static/js/bundle.js" []) empty_world).2.

(** A world whose dynamic tier holds a snapshot of [/dashboard]. *)
Definition world_with_page : World :=
  mkWorld [(DYNAMIC_CACHE, {[ sample_origin +:+ "/dashboard" := snapshot_200 ]})] [].

(** Three deferred actions; the server refuses the second one. *)
Definition sample_action (n : nat) (path : string) : Action :=
  mkAction n (mkURL sample_origin path "") "POST" [] (Some "{}").

Definition sample_batch : list Action :=
  [ sample_action 1 "/api/trades/1"; sample_action 2 "/api/trades/2";
    sample_action 3 "/api/trades/3" ].

Definition network_refusing_second : Request → FetchResult :=
  λ r, if String.eqb (pathname (req_url r)) "/api/trades/2"
       then NetResponse response_500
       else NetResponse response_200.

(** ** The message listener *)

(** [event.data] of a message from a page: its [type] and its [urls], where
    [None] is an absent property.  The URLs are paths, resolved against the
    origin of the worker. *)
Record ClientMessage := mkClientMessage {
  message_type : string;
  message_urls : option (list string) }.

(** How [console.log] shows the message: its type, then its URLs. *)
Definition message_args (data : option ClientMessage) : list LogArg :=
  match data with
  | None => []
  | Some m => ArgString (message_type m) :: (ArgString <$> default [] (message_urls m))
  end.

(** The message listener.  Its result is the promise it hands to
    [event.waitUntil] for a CACHE_URLS message, whose rejection nothing
    catches; [cache.addAll(undefined)] rejects with a [TypeError]. *)
Definition onClientMessage (self_origin : string)
    (network : Request → FetchResult) (data : option ClientMessage) : Task unit :=
  (console_log "Service Worker received message:" (message_args data) ;;
   when (match data with
         | Some m => String.eqb (message_type m) "SKIP_WAITING"
         | None => false
         end)
     skipWaiting ;;
   match data with
   | Some m =>
       if String.eqb (message_type m) "CACHE_URLS" then
         let! cache := caches_open_task API_CACHE in
         match message_urls m with
         | Some urls => cache_addAll self_origin network cache urls
         | None => throw (TypeError "undefined is not iterable")
         end
       else ret tt
   | None => ret tt
   end)%task.

(** ** Reading the storage *)

(** No tier other than [tier] holds a snapshot under [key]. *)
Definition held_only_in (tier key : string) (cs : CacheStorage) : bool :=
  forallb (λ p, bool_decide (p.1 = tier) || bool_decide (p.2 !! key = None)) cs.

(** The tier in which the strategy of a policy stores responses. *)
Definition tier_of (policy : Policy) : string :=
  match policy with
  | CacheFirst => STATIC_CACHE
  | NetworkFirst => API_CACHE
  | StaleWhileRevalidate => DYNAMIC_CACHE
  end.

(** A network that answers with a newer response. *)
Definition response_newer : Response := mkResponse 200 "OK" [] (BodyText "newer").
Definition network_newer : Request → FetchResult := λ _, NetResponse response_newer.

(** A request that the listener leaves alone. *)
Definition sample_post : Request :=
  mkRequest "POST" (mkURL sample_origin "/api/trades" "") [] (Some "{}").

End SW.

(** * The data-processing worker *)

Module DataProcessor.

(** ** Numbers *)

Definition isNaN (x : float) : bool := negb (PrimFloat.eqb x x).

(** [ToBoolean] on a number: [0], [-0] and [NaN] are falsy. *)
Definition truthy (x : float) : bool := negb (PrimFloat.eqb x 0) && negb (isNaN x).

(** [a > b] *)
Definition gt (a b : float) : bool := PrimFloat.ltb b a.

(** A numeric property that may be absent: [undefined] converts to [NaN]. *)
Definition toNumber (x : option float) : float := default nan x.

(** [a || b] on numeric properties that may be absent. *)
Definition or_else (a b : option float) : option float :=
  match a with
  | Some x => if truthy x then Some x else b
  | None => b
  end.

(** ** Portfolio valuation *)

Record Holding := mkHolding {
  symbol : string;
  quantity : option float;
  averagePrice : option float;
  holdingPrice : option float }.    (* holding.currentPrice *)

(** The properties [calculatePortfolioValue] reads from [data]; [None] is
    an absent property ([undefined]). *)
Record PortfolioData := mkPortfolioData {
  holdings : option (list Holding);
  currentPrices : option (gmap string float);
  initialInvestment : option float }.

Record ProcessedHolding := mkProcessedHolding {
  holding : Holding;                   (* ...holding *)
  currentPrice : float;
  currentValue : float;
  costBasis : float;
  gainLoss : float;
  gainLossPercent : float }.

Record Totals := mkTotals {
  accValue : float;
  accCost : float;
  accGainLoss : float }.

Record Summary := mkSummary {
  totalValue : float;
  totalCost : float;
  totalGainLoss : float;
  totalGainLossPercent : float;
  totalReturn : float }.

Record PortfolioValue := mkPortfolioValue {
  processedHoldings : list ProcessedHolding;
  summary : Summary }.

(** The callback of [holdings.map]: the processed holding and the updated
    running totals.  Reading a property of an [undefined] [currentPrices]
    throws. *)
Definition processHolding (currentPrices : option (gmap string float))
    (acc : Totals) (h : Holding) : Completion (ProcessedHolding * Totals) :=
  match currentPrices with
  | None =>
      Throw (TypeError ("Cannot read properties of undefined (reading '"
                        +:+ symbol h +:+ "')"))
  | Some prices =>
      let currentPrice :=
        default 0%float
          (or_else (or_else (prices !! symbol h) (holdingPrice h)) (Some 0%float)) in
      let currentValue := (currentPrice * toNumber (quantity h))%float in
      let costBasis := (toNumber (averagePrice h) * toNumber (quantity h))%float in
      let gainLoss := (currentValue - costBasis)%float in
      let gainLossPercent :=
        if gt costBasis 0 then ((gainLoss / costBasis) * 100)%float else 0%float in
      Normal
        (mkProcessedHolding h currentPrice currentValue costBasis gainLoss
           gainLossPercent,
         mkTotals (accValue acc + currentValue)
                  (accCost acc + costBasis)
                  (accGainLoss acc + gainLoss))
  end.

(** [holdings.map(callback)], threading the running totals. *)
Fixpoint mapHoldings (currentPrices : option (gmap string float))
    (acc : Totals) (hs : list Holding)
  : Completion (list ProcessedHolding * Totals) :=
  match hs with
  | [] => Normal ([], acc)
  | h :: rest =>
      match processHolding currentPrices acc h with
      | Throw e => Throw e
      | Normal (p, acc') =>
          match mapHoldings currentPrices acc' rest with
          | Throw e => Throw e
          | Normal (ps, acc'') => Normal (p :: ps, acc'')
          end
      end
  end.

Definition calculatePortfolioValue (data : PortfolioData) : Completion PortfolioValue :=
  match holdings data with
  | None => Throw (TypeError "Cannot read properties of undefined (reading 'map')")
  | Some hs =>
      match mapHoldings (currentPrices data) (mkTotals 0 0 0) hs with
      | Throw e => Throw e
      | Normal (processed, totals) =>
          let totalGainLossPercent :=
            if gt (accCost totals) 0
            then ((accGainLoss totals / accCost totals) * 100)%float
            else 0%float in
          let totalReturn :=
            if gt (toNumber (initialInvestment data)) 0
            then (((accValue totals - toNumber (initialInvestment data))
                   / toNumber (initialInvestment data)) * 100)%float
            else 0%float in
          Normal
            (mkPortfolioValue processed
               (mkSummary (accValue totals) (accCost totals) (accGainLoss totals)
                  totalGainLossPercent totalReturn))
      end
  end.

(** ** The message listener *)

Section Listener.

(** The payload of a request, as received by structured clone, and the
    results of the handlers that are not modelled further. *)
Context {JSData JSResult Id : Type}.

(** [const { holdings, currentPrices, initialInvestment } = data]; throws
    when [data] is [undefined] or [null]. *)
Variable portfolioData : JSData → Completion PortfolioData.

(** The other six handlers: each returns a result or throws. *)
Variable processMarketData : JSData → Completion JSResult.
Variable calculatePerformanceMetrics : JSData → Completion JSResult.
Variable processChartData : JSData → Completion JSResult.
Variable analyzeStockTrends : JSData → Completion JSResult.
Variable calculateRiskMetrics : JSData → Completion JSResult.
Variable processWatchlistAnalysis : JSData → Completion JSResult.

(** [error.stack], which the engine determines. *)
Variable stack_of : JSError → string.

Record Message := mkMessage {
  msg_type : string;
  msg_data : JSData;
  msg_id : Id }.

Inductive Result :=
| PortfolioResult (r : PortfolioValue)
| OtherResult (r : JSResult).

Inductive Reply :=
| SUCCESS (id : Id) (result : Result)
| ERROR (id : Id) (message stack : string).

Definition reply_id (r : Reply) : Id :=
  match r with SUCCESS id _ => id | ERROR id _ _ => id end.

Definition KNOWN_TYPES : list string :=
  [ "CALCULATE_PORTFOLIO_VALUE"; "PROCESS_MARKET_DATA";
    "CALCULATE_PERFORMANCE_METRICS"; "PROCESS_CHART_DATA";
    "ANALYZE_STOCK_TRENDS"; "CALCULATE_RISK_METRICS";
    "PROCESS_WATCHLIST_ANALYSIS" ].

Definition other (c : Completion JSResult) : Completion Result :=
  match c with Normal r => Normal (OtherResult r) | Throw e => Throw e end.

(** The [switch] of the listener. *)
Definition dispatch (type : string) (data : JSData) : Completion Result :=
  if String.eqb type "CALCULATE_PORTFOLIO_VALUE" then
    match portfolioData data with
    | Throw e => Throw e
    | Normal d =>
        match calculatePortfolioValue d with
        | Normal r => Normal (PortfolioResult r)
        | Throw e => Throw e
        end
    end
  else if String.eqb type "PROCESS_MARKET_DATA" then other (processMarketData data)
  else if String.eqb type "CALCULATE_PERFORMANCE_METRICS" then
    other (calculatePerformanceMetrics data)
  else if String.eqb type "PROCESS_CHART_DATA" then other (processChartData data)
  else if String.eqb type "ANALYZE_STOCK_TRENDS" then other (analyzeStockTrends data)
  else if String.eqb type "CALCULATE_RISK_METRICS" then other (calculateRiskMetrics data)
  else if String.eqb type "PROCESS_WATCHLIST_ANALYSIS" then
    other (processWatchlistAnalysis data)
  else Throw (Error ("Unknown message type: " +:+ type)).

(** The listener: the messages it posts back with [self.postMessage]. *)
Definition onMessage (m : Message) : list Reply :=
  match dispatch (msg_type m) (msg_data m) with
  | Normal result => [SUCCESS (msg_id m) result]
  | Throw error => [ERROR (msg_id m) (error_message error) (stack_of error)]
  end.

End Listener.

(** ** Sample requests *)

(** The holding [{symbol: "X", quantity: 10, averagePrice: 5, currentPrice: 7}]. *)
Definition holdingX : Holding :=
  mkHolding "X" (Some 10%float) (Some 5%float) (Some 7%float).

(** A [currentPrices] object without properties. *)
Definition no_prices : gmap string float := ∅.

(** A worker whose payloads are portfolio data, whose other handlers reject
    every payload, and whose engine records no stack. *)
Definition rejecting : PortfolioData → Completion unit :=
  λ _, Throw (TypeError "Cannot read properties of undefined").

Definition sample_listener : @Message PortfolioData nat → list (@Reply unit nat) :=
  onMessage Normal rejecting rejecting rejecting rejecting rejecting rejecting
            (λ _, "").

(** ** More numbers *)

(** [a < b] *)
Definition lt (a b : float) : bool := PrimFloat.ltb a b.

(** An array length or a count, as a number. *)
Definition ofNat (n : nat) : float :=
  PrimFloat.of_uint63 (Uint63.of_Z (Z.of_nat n)).

(** [x || 0] and [x || 1] on a numeric property that may be absent. *)
Definition orZero (x : option float) : float :=
  default 0%float (or_else x (Some 0%float)).
Definition orOne (x : option float) : float :=
  default 1%float (or_else x (Some 1%float)).

(** [l.reduce((sum, x) => sum + f(x), 0)] *)
Definition sumBy {A} (f : A → float) (l : list A) : float :=
  fold_left (λ sum x, (sum + f x)%float) l 0%float.

(** [l.slice(from, to)] for [0 <= from]. *)
Definition slice {A} (from to : nat) (l : list A) : list A :=
  take (to - from) (drop from l).

(** [l.sort(compare)]: the sort is stable; [compare(a, b) > 0] puts [b]
    before [a], any other result (negative, zero or [NaN]) keeps [a] before
    [b].  Written as the insertion of each element, from the last one to the
    first, into the sorted rest. *)
Fixpoint insertSorted {A} (compare : A → A → float) (x : A) (l : list A) : list A :=
  match l with
  | [] => [x]
  | y :: rest =>
      if gt (compare x y) 0 then y :: insertSorted compare x rest else x :: l
  end.

Definition sort {A} (compare : A → A → float) (l : list A) : list A :=
  foldr (insertSorted compare) [] l.

(** ** Market data *)

Record Stock := mkStock {
  stock_symbol : string;
  changePercent : option float;
  volume : option float;
  averageVolume : option float;
  stock_price : option float }.

Definition change (stock : Stock) : float := orZero (changePercent stock).

Definition isGainer (stock : Stock) : bool := gt (change stock) 0.
Definition isLoser (stock : Stock) : bool := lt (change stock) 0.

#[warnings="-inexact-float"]
Definition calculateMarketSentiment (gainers losers total : nat) : string :=
  let ratio := if decide (0 < total) then (ofNat gainers / ofNat total)%float
               else 0%float in
  if gt ratio 0.6 then "very_bullish"
  else if gt ratio 0.4 then "bullish"
  else if lt ratio 0.4 then "bearish"
  else "neutral".

Record MarketStatistics := mkMarketStatistics {
  totalStocks : nat;
  gainers : nat;
  losers : nat;
  unchanged : Z;
  averageChange : float;
  totalVolume : float;
  averageVolumeOfMarket : float }.      (* statistics.averageVolume *)

Record MarketData := mkMarketData {
  statistics : MarketStatistics;
  topGainers : list Stock;
  topLosers : list Stock;
  marketSentiment : string }.

(** [data.stocks] is [None] when the property is absent. *)
Definition processMarketData (stocks : option (list Stock)) : Completion MarketData :=
  match stocks with
  | None => Throw (TypeError "Cannot read properties of undefined (reading 'length')")
  | Some stocks =>
      let totalStocks := length stocks in
      let gainers := length (List.filter isGainer stocks) in
      let losers := length (List.filter isLoser stocks) in
      let unchanged := (Z.of_nat totalStocks - Z.of_nat gainers - Z.of_nat losers)%Z in
      let totalChange := sumBy change stocks in
      let averageChange :=
        if decide (0 < totalStocks) then (totalChange / ofNat totalStocks)%float
        else 0%float in
      let totalVolume := sumBy (λ stock, orZero (volume stock)) stocks in
      let averageVolume :=
        if decide (0 < totalStocks) then (totalVolume / ofNat totalStocks)%float
        else 0%float in
      let topGainers :=
        slice 0 10 (sort (λ a b, (change b - change a)%float)
                      (List.filter isGainer stocks)) in
      let topLosers :=
        slice 0 10 (sort (λ a b, (change a - change b)%float)
                      (List.filter isLoser stocks)) in
      Normal
        (mkMarketData
           (mkMarketStatistics totalStocks gainers losers unchanged averageChange
              totalVolume averageVolume)
           topGainers topLosers
           (calculateMarketSentiment gainers losers totalStocks))
  end.

(** ** Stock trends *)

Record Momentum := mkMomentum {
  momentum_price : float;
  momentum_volume : float;
  momentum_combined : float }.

#[warnings="-inexact-float"]
Definition calculateMomentum (stock : Stock) : Momentum :=
  let change := orZero (changePercent stock) in
  let volume := orZero (volume stock) in
  let averageVolume := orOne (averageVolume stock) in
  mkMomentum change ((volume / averageVolume) * 100)%float
    ((change * 0.7) + ((volume / averageVolume) * 30))%float.

Definition analyzeVolume (currentVolume : float) (averageVolume : option float)
  : string :=
  match or_else averageVolume None with
  | None => "unknown"
  | Some averageVolume =>
      let ratio := (currentVolume / averageVolume)%float in
      if gt ratio 2 then "very_high"
      else if gt ratio 1.5 then "high"
      else if lt ratio 0.5 then "low"
      else "normal"
  end.

Definition trendOf (changePercent : float) : string :=
  if gt changePercent 2 then "strong_bullish"
  else if gt changePercent 0.5 then "bullish"
  else if lt changePercent (-2) then "strong_bearish"
  else if lt changePercent (-0.5) then "bearish"
  else "neutral".

Record Trend := mkTrend {
  trend_stock : Stock;                 (* ...stock *)
  trend : string;
  momentum : Momentum;
  volumeAnalysis : string }.

Record TrendSummary := mkTrendSummary {
  bullish : nat;
  bearish : nat;
  neutral : nat }.

Record TrendAnalysis := mkTrendAnalysis {
  trends : list Trend;
  trendSummary : TrendSummary }.

Definition analyzeStock (stock : Stock) : Trend :=
  mkTrend stock (trendOf (orZero (changePercent stock)))
    (calculateMomentum stock)
    (analyzeVolume (orZero (volume stock)) (averageVolume stock)).

Definition analyzeStockTrends (stocks : option (list Stock))
  : Completion TrendAnalysis :=
  match stocks with
  | None => Throw (TypeError "Cannot read properties of undefined (reading 'map')")
  | Some stocks =>
      let trends := analyzeStock <$> stocks in
      Normal
        (mkTrendAnalysis trends
           (mkTrendSummary
              (length (List.filter (λ t, includes (trend t) "bull") trends))
              (length (List.filter (λ t, includes (trend t) "bear") trends))
              (length (List.filter (λ t, String.eqb (trend t) "neutral") trends))))
  end.

(** ** Watchlist *)

Record WatchlistItem := mkWatchlistItem { item_symbol : string }.

Definition generateRecommendation (stock : Stock) : string :=
  let changePercent := orZero (changePercent stock) in
  let volume := orZero (volume stock) in
  let averageVolume := orOne (averageVolume stock) in
  if gt changePercent 5 && gt volume (averageVolume * 1.5) then "strong_buy"
  else if gt changePercent 2 then "buy"
  else if lt changePercent (-5) && gt volume (averageVolume * 1.5) then "strong_sell"
  else if lt changePercent (-2) then "sell"
  else "hold".

Record WatchlistEntry := mkWatchlistEntry {
  entry_item : WatchlistItem;          (* ...item *)
  entry_currentPrice : option float;
  entry_changePercent : float;
  entry_volume : float;
  alerts : list string;
  recommendation : string }.

Record WatchlistSummary := mkWatchlistSummary {
  totalItems : nat;
  highGainers : nat;
  highLosers : nat;
  totalAlerts : nat }.                 (* summary.alerts *)

Record WatchlistAnalysis := mkWatchlistAnalysis {
  items : list WatchlistEntry;
  watchlistSummary : WatchlistSummary }.

(** The alerts of a stock, in the order they are pushed. *)
Definition alertsOf (stock : Stock) : list string :=
  let changePercent := orZero (changePercent stock) in
  let volume := orZero (volume stock) in
  (if gt changePercent 5 then ["high_gain"] else [])
  ++ (if lt changePercent (-5) then ["high_loss"] else [])
  ++ (if gt volume (orZero (averageVolume stock) * 2) then ["high_volume"] else []).

(** The callback of [watchlist.map]: [None] is the [null] answered for an
    item without a stock of its symbol. *)
Definition analyzeItem (marketData : list Stock) (item : WatchlistItem)
  : option WatchlistEntry :=
  match List.find (λ s, String.eqb (stock_symbol s) (item_symbol item)) marketData with
  | None => None
  | Some stock =>
      Some (mkWatchlistEntry item (stock_price stock)
              (orZero (changePercent stock)) (orZero (volume stock))
              (alertsOf stock) (generateRecommendation stock))
  end.

Definition processWatchlistAnalysis (watchlist : option (list WatchlistItem))
    (marketData : option (list Stock)) : Completion WatchlistAnalysis :=
  match watchlist with
  | None => Throw (TypeError "Cannot read properties of undefined (reading 'map')")
  | Some watchlist =>
      match watchlist, marketData with
      | _ :: _, None =>
          Throw (TypeError "Cannot read properties of undefined (reading 'find')")
      | _, _ =>
          let analysis := omap (analyzeItem (default [] marketData)) watchlist in
          Normal
            (mkWatchlistAnalysis analysis
               (mkWatchlistSummary
                  (length analysis)
                  (length (List.filter (λ e, gt (entry_changePercent e) 5) analysis))
                  (length (List.filter (λ e, lt (entry_changePercent e) (-5)) analysis))
                  (fold_left (λ sum e, sum + length (alerts e)) analysis 0)))
      end
  end.

(** ** Chart indicators *)

Record Point := mkPoint {
  point_value : option float;
  point_price : option float }.

(** [point.value || point.price] *)
Definition valueOf (point : Point) : option float :=
  or_else (point_value point) (point_price point).

(** The series [result[period]] of [calculateMovingAverages]: [None] is the
    [null] pushed while the window is not full. *)
Definition movingAverage (period : nat) (data : list Point) : list (option float) :=
  (λ i, if decide (i < period - 1) then None
        else Some (sumBy (λ point, toNumber (valueOf point))
                     (slice (i + 1 - period) (i + 1) data)
                   / ofNat period)%float)
  <$> seq 0 (length data).

Definition calculateMovingAverages (data : list Point) (periods : list nat)
  : list (nat * list (option float)) :=
  (λ period, (period, movingAverage period data)) <$> periods.

(** The first loop of [calculateRSI]: the gain and the loss of each point
    after the first one. *)
Fixpoint changes (previous : Point) (rest : list Point) : list (float * float) :=
  match rest with
  | [] => []
  | point :: rest' =>
      let change := (toNumber (valueOf point) - toNumber (valueOf previous))%float in
      ((if gt change 0 then change else 0%float),
       (if lt change 0 then abs change else 0%float))
      :: changes point rest'
  end.

(** [calculateRSI(data, period)], for [1 <= period]. *)
Definition calculateRSI (data : list Point) (period : nat) : list float :=
  let moves := match data with [] => [] | first :: rest => changes first rest end in
  (λ i,
     let avgGain := (sumBy fst (slice (i + 1 - period) (i + 1) moves) / ofNat period)%float in
     let avgLoss := (sumBy snd (slice (i + 1 - period) (i + 1) moves) / ofNat period)%float in
     if PrimFloat.eqb avgLoss 0 then 100%float
     else (100 - (100 / (1 + avgGain / avgLoss)))%float)
  <$> seq (period - 1) (length moves - (period - 1)).

(** The loop of [calculateEMA] after its first turn: [previous] is
    [ema[i-1]]. *)
Fixpoint emaFrom (multiplier : float) (previous : option float) (rest : list Point)
  : list (option float) :=
  match rest with
  | [] => []
  | point :: rest' =>
      let next := (toNumber (valueOf point) * multiplier
                   + toNumber previous * (1 - multiplier))%float in
      Some next :: emaFrom multiplier (Some next) rest'
  end.

(** [calculateEMA(data, period)]: the first entry is [value || price] of the
    first point as it is, [None] when that is [undefined]. *)
Definition calculateEMA (data : list Point) (period : float) : list (option float) :=
  match data with
  | [] => []
  | first :: rest =>
      valueOf first :: emaFrom (2 / (period + 1))%float (valueOf first) rest
  end.

Record MACD := mkMACD {
  macd : float;
  signal : option float;
  histogram : float }.

(** [list[index]], [undefined] out of range. *)
Definition at_index (l : list (option float)) (index : nat) : option float :=
  mjoin (l !! index).

Definition calculateMACD (data : list Point) : list MACD :=
  let ema12 := calculateEMA data 12 in
  let ema26 := calculateEMA data 26 in
  let macd :=
    imap (λ index value, (toNumber value - toNumber (at_index ema26 index))%float)
         ema12 in
  let signal := calculateEMA ((λ value, mkPoint (Some value) None) <$> macd) 9 in
  imap (λ index value,
          mkMACD value (at_index signal index)
                 (value - toNumber (at_index signal index))%float)
       macd.

(** ** Risk metrics *)

Section Risk.

(** [Math.pow] and [Math.sqrt], which the engine approximates, and
    [Math.floor] of a number that is not negative, as an array index. *)
Variable Math_pow : float → float → float.
Variable Math_sqrt : float → float.
Variable floorIndex : float → nat.

Definition identity (x : float) : float := x.

Definition calculateVolatility (returns : list float) : float :=
  if decide (length returns < 2) then 0%float
  else
    let mean := (sumBy identity returns / ofNat (length returns))%float in
    let variance :=
      (sumBy (λ ret, Math_pow (ret - mean) 2) returns
       / ofNat (length returns - 1))%float in
    Math_sqrt variance.

(** The loop of [calculateBeta]: the covariance and the market variance. *)
Fixpoint betaSums (portfolioMean marketMean : float) (pairs : list (float * float))
    (covariance marketVariance : float) : float * float :=
  match pairs with
  | [] => (covariance, marketVariance)
  | (p, m) :: rest =>
      betaSums portfolioMean marketMean rest
        (covariance + (p - portfolioMean) * (m - marketMean))%float
        (marketVariance + Math_pow (m - marketMean) 2)%float
  end.

(** [calculateBeta(portfolioReturns, marketReturns)]: reading [length] of an
    absent list throws, the portfolio's first. *)
Definition calculateBeta (portfolioReturns marketReturns : option (list float))
  : Completion float :=
  match portfolioReturns, marketReturns with
  | None, _ | _, None =>
      Throw (TypeError "Cannot read properties of undefined (reading 'length')")
  | Some portfolioReturns, Some marketReturns =>
      if negb (length portfolioReturns =? length marketReturns)%nat
         || bool_decide (length portfolioReturns < 2)
      then Normal 1%float
      else
        let portfolioMean :=
          (sumBy identity portfolioReturns / ofNat (length portfolioReturns))%float in
        let marketMean :=
          (sumBy identity marketReturns / ofNat (length marketReturns))%float in
        let sums := betaSums portfolioMean marketMean
                      (zip portfolioReturns marketReturns) 0 0 in
        Normal (if gt sums.2 0 then (sums.1 / sums.2)%float else 1%float)
  end.

Definition calculateVaR (returns : list float) (confidence : float) : float :=
  if decide (length returns = 0) then 0%float
  else
    let sortedReturns := sort (λ a b, (a - b)%float) returns in
    let index := floorIndex ((1 - confidence) * ofNat (length sortedReturns))%float in
    orZero (sortedReturns !! index).

(** The loop of [calculateMaxDrawdown]. *)
Fixpoint drawdownFrom (returns : list float) (peak maxDrawdown runningSum : float)
  : float :=
  match returns with
  | [] => maxDrawdown
  | ret :: rest =>
      let runningSum := (runningSum + ret)%float in
      let peak := if gt runningSum peak then runningSum else peak in
      let drawdown := (peak - runningSum)%float in
      drawdownFrom rest peak
        (if gt drawdown maxDrawdown then drawdown else maxDrawdown) runningSum
  end.

Definition calculateMaxDrawdown (returns : list float) : float :=
  if decide (length returns = 0) then 0%float else drawdownFrom returns 0 0 0.

#[warnings="-inexact-float"]
Definition assessRiskLevel (volatility maxDrawdown : float) : string :=
  let riskScore := ((volatility * 0.6) + (maxDrawdown * 0.4))%float in
  if gt riskScore 20 then "high"
  else if gt riskScore 10 then "medium"
  else "low".

(** [data.portfolio] and [data.marketData], by their [returns]; [None] is an
    absent object or an absent property. *)
Record ReturnSeries := mkReturnSeries { returns : option (list float) }.

Record RiskMetrics := mkRiskMetrics {
  volatility : float;
  beta : float;
  var95 : float;
  var99 : float;
  maxDrawdown : float;
  riskLevel : string }.

#[warnings="-inexact-float"]
Definition calculateRiskMetrics (portfolio marketData : option ReturnSeries)
  : Completion RiskMetrics :=
  match portfolio with
  | None => Throw (TypeError "Cannot read properties of undefined (reading 'returns')")
  | Some portfolio =>
      let returns' := default [] (returns portfolio) in
      let volatility := calculateVolatility returns' in
      match marketData with
      | None =>
          Throw (TypeError "Cannot read properties of undefined (reading 'returns')")
      | Some marketData =>
          match calculateBeta (returns portfolio) (returns marketData) with
          | Throw e => Throw e
          | Normal beta =>
              let var95 := calculateVaR returns' 0.95 in
              let var99 := calculateVaR returns' 0.99 in
              let maxDrawdown := calculateMaxDrawdown returns' in
              Normal (mkRiskMetrics volatility beta var95 var99 maxDrawdown
                        (assessRiskLevel volatility maxDrawdown))
          end
      end
  end.

End Risk.

(** The property names every object inherits from [Object.prototype]: read
    from a price table, such a name answers the inherited property, which a
    map of prices does not show. *)
Definition OBJECT_PROTOTYPE_NAMES : list string :=
  [ "constructor"; "hasOwnProperty"; "isPrototypeOf"; "propertyIsEnumerable";
    "toLocaleString"; "toString"; "valueOf"; "__proto__"; "__defineGetter__";
    "__defineSetter__"; "__lookupGetter__"; "__lookupSetter__" ].

(** ** More samples *)

Definition sample_stock (symbol : string) (change volume : float) : Stock :=
  mkStock symbol (Some change) (Some volume) (Some 100%float) (Some 1%float).

(** A gainer, a loser, a high gainer with a high volume, and a stock
    without figures. *)
Definition sample_market : list Stock :=
  [ sample_stock "A" 1 10; sample_stock "B" (-6) 20; sample_stock "C" 7 300;
    mkStock "D" None None None None ].

Definition sample_watchlist : list WatchlistItem :=
  [ mkWatchlistItem "C"; mkWatchlistItem "Z"; mkWatchlistItem "B" ].

Definition sample_point (x : float) : Point := mkPoint (Some x) None.

Definition rising_series : list Point :=
  [ sample_point 10; sample_point 11; sample_point 12 ].

(** Sixteen points at the same value. *)
Definition flat_series : list Point := replicate 16 (sample_point 10).

(** An engine whose [Math.pow(x, 2)] is [x * x]. *)
Definition sample_pow (x y : float) : float := (x * x)%float.
Definition sample_floorIndex (x : float) : nat := 0.

End DataProcessor.

(** * Properties of the service worker *)

Import SW.

(** Unfolding of the monad, leaving the cache operations folded. *)
Ltac run_task :=
  cbv [respondWith respondWithRevalidation cacheFirst networkFirst
       staleWhileRevalidate fetch fetch_settle caches_open_task
       caches_match_task cache_match_task cache_put_task caches_keys_task
       caches_delete_task console_log console_error skipWaiting clients_claim
       removePendingAction syncAction when lift
       try_catch bind ret throw emit update_caches read_caches
       caches trace fetchPromise cachedResponse].

(** ** Cache storage *)

Lemma cache_lookup_open_same name cs :
  cache_lookup name (caches_open name cs) = Some (default ∅ (cache_lookup name cs)).
Proof.
  unfold caches_open, caches_has.
  case_bool_decide as Hin.
  - induction cs as [|[n c] cs IH]; simpl in *; [by apply elem_of_nil in Hin|].
    case_decide; [done|].
    apply IH. apply elem_of_cons in Hin as [->|]; done.
  - induction cs as [|[n c] cs IH]; simpl in *.
    + by rewrite decide_True.
    + rewrite not_elem_of_cons in Hin. destruct Hin as [Hne Hin].
      destruct (decide (n = name)); [congruence|]. by apply IH.
Qed.

Lemma cache_lookup_put name key r cs :
  cache_lookup name (cache_put name key r cs)
  = (λ c : Cache, <[key := r]> c) <$> cache_lookup name cs.
Proof.
  unfold cache_put.
  induction cs as [|[n c] cs IH]; simpl; [done|].
  destruct (decide (n = name)) as [->|Hne]; simpl.
  - by rewrite decide_True.
  - by rewrite decide_False.
Qed.

(** After [caches.open(name)] and [cache.put], the tier answers the key with
    the response just written, whatever it held before. *)
Lemma cache_match_put_open name key r cs :
  cache_match name key (cache_put name key r (caches_open name cs)) = Some r.
Proof.
  unfold cache_match.
  rewrite cache_lookup_put, cache_lookup_open_same. simpl.
  apply lookup_insert_eq.
Qed.

Lemma cache_match_open name key cs :
  cache_match name key (caches_open name cs) = cache_match name key cs.
Proof.
  unfold cache_match. rewrite cache_lookup_open_same.
  destruct (cache_lookup name cs); simpl; [done|]. apply lookup_empty.
Qed.

Lemma caches_open_present name cs :
  is_Some (cache_lookup name cs) → caches_open name cs = cs.
Proof.
  intros [c Hc]. unfold caches_open, caches_has.
  case_bool_decide as Hin; [done|]. exfalso. apply Hin. clear Hin.
  induction cs as [|[n c'] cs IH]; simpl in *; [done|].
  apply elem_of_cons.
  case_decide; subst; [by left|]. right. by apply IH.
Qed.

Lemma cache_match_present name key cs r :
  cache_match name key cs = Some r → is_Some (cache_lookup name cs).
Proof.
  unfold cache_match. destruct (cache_lookup name cs); [eauto|done].
Qed.

(** ** Classification *)

Section Classification.

Variable network : Request → FetchResult.

Lemma onFetch_cache_first request :
  classify request = Normal (Some CacheFirst) →
  onFetch network request = respondWith (cacheFirst network request).
Proof.
  unfold classify, onFetch.
  destruct (negb _); [done|]. destruct (isStaticAsset _); [done|].
  destruct (isAPIRequest _); [done|]. by destruct (isHTMLRequest _) as [[]|].
Qed.

Lemma onFetch_network_first request :
  classify request = Normal (Some NetworkFirst) →
  onFetch network request = respondWith (networkFirst network request).
Proof.
  unfold classify, onFetch.
  destruct (negb _); [done|]. destruct (isStaticAsset _); [done|].
  destruct (isAPIRequest _); [done|]. by destruct (isHTMLRequest _) as [[]|].
Qed.

Lemma onFetch_revalidate request :
  classify request = Normal (Some StaleWhileRevalidate) →
  onFetch network request
  = respondWithRevalidation (staleWhileRevalidate network request).
Proof.
  unfold classify, onFetch.
  destruct (negb _); [done|]. destruct (isStaticAsset _); [done|].
  destruct (isAPIRequest _); [done|]. by destruct (isHTMLRequest _) as [[]|].
Qed.

Lemma onFetch_pass_through request :
  classify request = Normal None → onFetch network request = ret PassThrough.
Proof.
  unfold classify, onFetch.
  destruct (negb _); [done|]. destruct (isStaticAsset _); [done|].
  destruct (isAPIRequest _); [done|]. by destruct (isHTMLRequest _) as [[]|].
Qed.

Lemma onFetch_throws request e w :
  classify request = Throw e → onFetch network request w = (Throw e, w).
Proof.
  unfold classify, onFetch.
  destruct (negb _); [done|]. destruct (isStaticAsset _); [done|].
  destruct (isAPIRequest _); [done|].
  destruct (isHTMLRequest _) as [[]|]; [done..|]. by intros [= ->].
Qed.

(** A GET request that is neither a static asset nor an API call and has no
    accept header makes the listener throw. *)
Lemma onFetch_throws_without_accept request w :
  req_method request = "GET" →
  isStaticAsset request = false →
  isAPIRequest request = false →
  headers_get "accept" (req_headers request) = None →
  onFetch network request w
  = (Throw (TypeError "Cannot read properties of null (reading 'includes')"), w).
Proof.
  intros Hm Hs Ha Hh. unfold onFetch, isHTMLRequest.
  by rewrite Hm, Hs, Ha, Hh.
Qed.

End Classification.

(** ** The strategies *)

Section Strategies.

Variable network : Request → FetchResult.

Lemma cacheFirst_hit request w cached :
  caches_match (request_key request) (caches w) = Some cached →
  cacheFirst network request w
  = (Normal cached,
     mkWorld (caches w) (trace w ++ [CacheLookup None (request_key request)])).
Proof. intros H. destruct w as [cs tr]; simpl in *. run_task. by rewrite H. Qed.

Lemma cacheFirst_miss_ok request w resp :
  caches_match (request_key request) (caches w) = None →
  network request = NetResponse resp → ok resp = true →
  cacheFirst network request w
  = (Normal resp,
     mkWorld
       (cache_put STATIC_CACHE (request_key request) resp
          (caches_open STATIC_CACHE (caches w)))
       (trace w ++ [CacheLookup None (request_key request); NetFetch request;
                    CachePut STATIC_CACHE (request_key request)])).
Proof.
  intros H Hn Hok. destruct w as [cs tr]; simpl in *. run_task. rewrite H, Hn, Hok.
  by rewrite <- !app_assoc.
Qed.

Lemma cacheFirst_miss_not_ok request w resp :
  caches_match (request_key request) (caches w) = None →
  network request = NetResponse resp → ok resp = false →
  cacheFirst network request w
  = (Normal resp,
     mkWorld (caches w)
       (trace w ++ [CacheLookup None (request_key request); NetFetch request])).
Proof.
  intros H Hn Hok. destruct w as [cs tr]; simpl in *. run_task. rewrite H, Hn, Hok.
  by rewrite <- !app_assoc.
Qed.

Lemma cacheFirst_miss_offline request w e :
  caches_match (request_key request) (caches w) = None →
  network request = NetFailure e →
  cacheFirst network request w
  = (Normal offlineResponse,
     mkWorld (caches w)
       (trace w ++ [CacheLookup None (request_key request); NetFetch request;
                    ConsoleError "Cache first strategy failed:" [ArgError e]])).
Proof.
  intros H Hn. destruct w as [cs tr]; simpl in *. run_task. rewrite H, Hn.
  by rewrite <- !app_assoc.
Qed.

Lemma networkFirst_ok request w resp :
  network request = NetResponse resp → ok resp = true →
  networkFirst network request w
  = (Normal resp,
     mkWorld
       (cache_put API_CACHE (request_key request) resp
          (caches_open API_CACHE (caches w)))
       (trace w ++ [NetFetch request; CachePut API_CACHE (request_key request)])).
Proof.
  intros Hn Hok. destruct w as [cs tr]; simpl in *. run_task. rewrite Hn, Hok.
  by rewrite <- !app_assoc.
Qed.

Lemma networkFirst_not_ok request w resp :
  network request = NetResponse resp → ok resp = false →
  networkFirst network request w
  = (Normal resp, mkWorld (caches w) (trace w ++ [NetFetch request])).
Proof. intros Hn Hok. destruct w as [cs tr]; simpl in *. run_task. by rewrite Hn, Hok. Qed.

Lemma networkFirst_offline request w e :
  network request = NetFailure e →
  networkFirst network request w
  = (Normal
       (match caches_match (request_key request) (caches w) with
        | Some cached => cached
        | None =>
            if isCriticalAPI request then offlineJSONResponse else offlineResponse
        end),
     mkWorld (caches w)
       (trace w ++ [NetFetch request;
                    ConsoleLog "Network failed, trying cache:" [ArgError e];
                    CacheLookup None (request_key request)])).
Proof.
  intros Hn. destruct w as [cs tr]; simpl in *. run_task. rewrite Hn.
  rewrite <- !app_assoc. simpl.
  destruct (caches_match _ _); [done|]. by destruct (isCriticalAPI _).
Qed.

End Strategies.

Section Revalidation.

Variable network : Request → FetchResult.

Lemma revalidate_hit_ok request w cached resp :
  cache_match DYNAMIC_CACHE (request_key request) (caches w) = Some cached →
  network request = NetResponse resp → ok resp = true →
  respondWithRevalidation (staleWhileRevalidate network request) w
  = (Normal (Responded (Some cached)),
     mkWorld
       (cache_put DYNAMIC_CACHE (request_key request) resp (caches w))
       (trace w ++ [CacheLookup (Some DYNAMIC_CACHE) (request_key request);
                    NetFetch request;
                    RespondWith (Some cached);
                    CachePut DYNAMIC_CACHE (request_key request)])).
Proof.
  intros Hc Hn Hok.
  pose proof (caches_open_present _ _ (cache_match_present _ _ _ _ Hc)) as Hopen.
  destruct w as [cs tr]; simpl in *. run_task.
  rewrite Hopen, Hc, Hn, Hok. by rewrite <- !app_assoc.
Qed.

Lemma revalidate_hit_stale request w cached :
  cache_match DYNAMIC_CACHE (request_key request) (caches w) = Some cached →
  answered_ok network request = false →
  respondWithRevalidation (staleWhileRevalidate network request) w
  = (Normal (Responded (Some cached)),
     mkWorld (caches w)
       (trace w ++ [CacheLookup (Some DYNAMIC_CACHE) (request_key request);
                    NetFetch request;
                    RespondWith (Some cached)])).
Proof.
  intros Hc Hn.
  pose proof (caches_open_present _ _ (cache_match_present _ _ _ _ Hc)) as Hopen.
  unfold answered_ok in Hn.
  destruct w as [cs tr]; simpl in *. run_task.
  rewrite Hopen, Hc.
  destruct (network request) as [resp|e]; [rewrite Hn|]; by rewrite <- !app_assoc.
Qed.

Lemma revalidate_miss_response request w resp :
  cache_match DYNAMIC_CACHE (request_key request) (caches w) = None →
  network request = NetResponse resp →
  respondWithRevalidation (staleWhileRevalidate network request) w
  = (Normal (Responded (Some resp)),
     mkWorld
       (if ok resp
        then cache_put DYNAMIC_CACHE (request_key request) resp
               (caches_open DYNAMIC_CACHE (caches w))
        else caches_open DYNAMIC_CACHE (caches w))
       (trace w ++ [CacheLookup (Some DYNAMIC_CACHE) (request_key request);
                    NetFetch request]
                ++ (if ok resp
                    then [CachePut DYNAMIC_CACHE (request_key request)] else [])
                ++ [RespondWith (Some resp)])).
Proof.
  intros Hc Hn.
  destruct w as [cs tr]; simpl in *. run_task.
  rewrite cache_match_open, Hc, Hn.
  destruct (ok resp); by rewrite <- !app_assoc.
Qed.

Lemma revalidate_miss_offline request w e :
  cache_match DYNAMIC_CACHE (request_key request) (caches w) = None →
  network request = NetFailure e →
  respondWithRevalidation (staleWhileRevalidate network request) w
  = (Normal (Responded None),
     mkWorld (caches_open DYNAMIC_CACHE (caches w))
       (trace w ++ [CacheLookup (Some DYNAMIC_CACHE) (request_key request);
                    NetFetch request;
                    RespondWith None])).
Proof.
  intros Hc Hn.
  destruct w as [cs tr]; simpl in *. run_task.
  rewrite cache_match_open, Hc, Hn. by rewrite <- !app_assoc.
Qed.

End Revalidation.

Lemma fetched_app t1 t2 : fetched (t1 ++ t2) = fetched t1 ++ fetched t2.
Proof. unfold fetched. apply omap_app. Qed.

Lemma removals_app t1 t2 : removals (t1 ++ t2) = removals t1 ++ removals t2.
Proof. unfold removals. apply omap_app. Qed.

Lemma respondWith_run strategy w r w' :
  strategy w = (Normal r, w') →
  respondWith strategy w
  = (Normal (Responded (Some r)),
     mkWorld (caches w') (trace w' ++ [RespondWith (Some r)])).
Proof. intros H. unfold respondWith, bind, emit, ret. by rewrite H. Qed.

(** ** The fetch policies *)

(** C7.  A GET request with a static-asset extension is served cache-first:
    a snapshot found by [caches.match] is the answer and the network is not
    called; without one the network is called exactly once, a 2xx response is
    written to the static tier before the page is answered, and when the
    fetch throws the answer is the synthesized 503 response, the listener
    completing normally. *)
Theorem cache_first_policy (network : Request → FetchResult) request w :
  classify request = Normal (Some CacheFirst) →
  (∀ cached,
     caches_match (request_key request) (caches w) = Some cached →
     onFetch network request w
     = (Normal (Responded (Some cached)),
        mkWorld (caches w)
          (trace w ++ [CacheLookup None (request_key request);
                       RespondWith (Some cached)]))
     ∧ fetched (trace (onFetch network request w).2) = fetched (trace w))
  ∧ (∀ resp,
       caches_match (request_key request) (caches w) = None →
       network request = NetResponse resp → ok resp = true →
       onFetch network request w
       = (Normal (Responded (Some resp)),
          mkWorld
            (cache_put STATIC_CACHE (request_key request) resp
               (caches_open STATIC_CACHE (caches w)))
            (trace w ++ [CacheLookup None (request_key request);
                         NetFetch request;
                         CachePut STATIC_CACHE (request_key request);
                         RespondWith (Some resp)]))
       ∧ cache_match STATIC_CACHE (request_key request)
           (caches (onFetch network request w).2) = Some resp
       ∧ fetched (trace (onFetch network request w).2)
         = fetched (trace w) ++ [request])
  ∧ (∀ resp,
       caches_match (request_key request) (caches w) = None →
       network request = NetResponse resp → ok resp = false →
       (onFetch network request w).1 = Normal (Responded (Some resp))
       ∧ caches (onFetch network request w).2 = caches w
       ∧ fetched (trace (onFetch network request w).2)
         = fetched (trace w) ++ [request])
  ∧ (∀ e,
       caches_match (request_key request) (caches w) = None →
       network request = NetFailure e →
       (onFetch network request w).1 = Normal (Responded (Some offlineResponse))
       ∧ resp_status offlineResponse = 503%Z
       ∧ caches (onFetch network request w).2 = caches w
       ∧ fetched (trace (onFetch network request w).2)
         = fetched (trace w) ++ [request]).
Proof.
  intros Hclass. rewrite (onFetch_cache_first network request Hclass).
  split; [|split; [|split]].
  - intros cached Hc.
    rewrite (respondWith_run _ _ _ _ (cacheFirst_hit _ _ _ _ Hc)).
    cbn [fst snd caches trace]. rewrite <- app_assoc.
    split; [done|]. rewrite fetched_app. cbn. by rewrite app_nil_r.
  - intros resp Hc Hn Hok.
    rewrite (respondWith_run _ _ _ _ (cacheFirst_miss_ok _ _ _ _ Hc Hn Hok)).
    cbn [fst snd caches trace]. rewrite <- app_assoc.
    split; [done|]. split.
    + apply cache_match_put_open.
    + by rewrite fetched_app.
  - intros resp Hc Hn Hok.
    rewrite (respondWith_run _ _ _ _ (cacheFirst_miss_not_ok _ _ _ _ Hc Hn Hok)).
    cbn [fst snd caches trace]. rewrite <- app_assoc.
    repeat split. by rewrite fetched_app.
  - intros e Hc Hn.
    rewrite (respondWith_run _ _ _ _ (cacheFirst_miss_offline _ _ _ _ Hc Hn)).
    cbn [fst snd caches trace]. rewrite <- app_assoc.
    repeat split. by rewrite fetched_app.
Qed.

(** C2.  A GET request classified network-first: a 2xx network response is
    written to the API tier, replacing what the tier held for the request,
    and returned; when the fetch throws, the snapshot found by
    [caches.match] is returned if there is one, else the 503 response with
    the JSON body for a path on the critical list and the generic 503
    response for any other path. *)
Theorem network_first_policy (network : Request → FetchResult) request w :
  classify request = Normal (Some NetworkFirst) →
  (∀ resp,
     network request = NetResponse resp → ok resp = true →
     (onFetch network request w).1 = Normal (Responded (Some resp))
     ∧ cache_match API_CACHE (request_key request)
         (caches (onFetch network request w).2) = Some resp)
  ∧ (∀ e,
       network request = NetFailure e →
       caches (onFetch network request w).2 = caches w
       ∧ (∀ cached,
            caches_match (request_key request) (caches w) = Some cached →
            (onFetch network request w).1 = Normal (Responded (Some cached)))
       ∧ (caches_match (request_key request) (caches w) = None →
          isCriticalAPI request = true →
          (onFetch network request w).1
          = Normal (Responded (Some
              (mkResponse 503 "" [("content-type", "application/json")]
                 (BodyJSON [ ("success", JBool false);
                             ("message", JString "Offline - Data not available");
                             ("offline", JBool true) ])))))
       ∧ (caches_match (request_key request) (caches w) = None →
          isCriticalAPI request = false →
          (onFetch network request w).1
          = Normal (Responded (Some
              (mkResponse 503 "Service Unavailable" []
                 (BodyText "Offline - Resource not available")))))).
Proof.
  intros Hclass. rewrite (onFetch_network_first network request Hclass).
  split.
  - intros resp Hn Hok.
    rewrite (respondWith_run _ _ _ _ (networkFirst_ok _ _ _ _ Hn Hok)).
    cbn [fst snd caches trace].
    split; [done|]. apply cache_match_put_open.
  - intros e Hn.
    rewrite (respondWith_run _ _ _ _ (networkFirst_offline _ _ _ _ Hn)).
    cbn [fst snd caches trace].
    split; [done|]. split; [|split].
    + by intros cached ->.
    + by intros -> ->.
    + by intros -> ->.
Qed.

(** C10.  When the fetch of a network-first request resolves to a response
    outside 200-299, that response is returned as it is: nothing is written
    to a tier, no cache is looked up and no 503 response is made; the only
    effect is the network call. *)
Theorem network_first_passes_error_status (network : Request → FetchResult)
    request w resp :
  network request = NetResponse resp → ok resp = false →
  networkFirst network request w
  = (Normal resp, mkWorld (caches w) (trace w ++ [NetFetch request])).
Proof. apply networkFirst_not_ok. Qed.

(** C8.  An HTML request handled by stale-while-revalidate: with a snapshot
    in the dynamic tier the page is answered with it before the callbacks of
    the fetch run, and the tier is written only when the fetch resolves to a
    2xx response; without a snapshot the page receives the response the
    fetch resolves to, and [undefined] when the fetch fails. *)
Theorem stale_while_revalidate_policy (network : Request → FetchResult) request w :
  classify request = Normal (Some StaleWhileRevalidate) →
  (∀ cached,
     cache_match DYNAMIC_CACHE (request_key request) (caches w) = Some cached →
     (∀ resp,
        network request = NetResponse resp → ok resp = true →
        onFetch network request w
        = (Normal (Responded (Some cached)),
           mkWorld
             (cache_put DYNAMIC_CACHE (request_key request) resp (caches w))
             (trace w ++ [CacheLookup (Some DYNAMIC_CACHE) (request_key request);
                          NetFetch request;
                          RespondWith (Some cached);
                          CachePut DYNAMIC_CACHE (request_key request)])))
     ∧ (answered_ok network request = false →
        onFetch network request w
        = (Normal (Responded (Some cached)),
           mkWorld (caches w)
             (trace w ++ [CacheLookup (Some DYNAMIC_CACHE) (request_key request);
                          NetFetch request;
                          RespondWith (Some cached)]))))
  ∧ (cache_match DYNAMIC_CACHE (request_key request) (caches w) = None →
     (∀ resp,
        network request = NetResponse resp →
        (onFetch network request w).1 = Normal (Responded (Some resp))
        ∧ caches (onFetch network request w).2
          = (if ok resp
             then cache_put DYNAMIC_CACHE (request_key request) resp
                    (caches_open DYNAMIC_CACHE (caches w))
             else caches_open DYNAMIC_CACHE (caches w)))
     ∧ (∀ e,
          network request = NetFailure e →
          (onFetch network request w).1 = Normal (Responded None)
          ∧ caches (onFetch network request w).2
            = caches_open DYNAMIC_CACHE (caches w))).
Proof.
  intros Hclass. rewrite (onFetch_revalidate network request Hclass). split.
  - intros cached Hc. split.
    + intros resp Hn Hok. by apply revalidate_hit_ok.
    + intros Hn. by apply revalidate_hit_stale.
  - intros Hc. split.
    + intros resp Hn. by rewrite (revalidate_miss_response _ _ _ _ Hc Hn).
    + intros e Hn. by rewrite (revalidate_miss_offline _ _ _ _ Hc Hn).
Qed.

(** C9.  There is a GET request, neither a static asset nor an API call and
    without an accept header, on which the listener throws a [TypeError]
    instead of applying the default network-first policy: classification is
    not total on GET requests. *)
Theorem classification_not_total :
  ∃ request,
    req_method request = "GET"
    ∧ isStaticAsset request = false
    ∧ isAPIRequest request = false
    ∧ headers_get "accept" (req_headers request) = None
    ∧ classify request
      = Throw (TypeError "Cannot read properties of null (reading 'includes')")
    ∧ ∀ network w,
        onFetch network request w
        = (Throw (TypeError "Cannot read properties of null (reading 'includes')"),
           w).
Proof.
  exists (mkRequest "GET" (mkURL "https://app.example" "/dashboard" "") [] None).
  repeat split; try reflexivity.
Qed.

(** ** Activation *)

Lemma filter_ext_in {A} (P Q : A → Prop) `{!∀ x, Decision (P x)}
    `{!∀ x, Decision (Q x)} (l : list A) :
  (∀ x, x ∈ l → P x ↔ Q x) → filter P l = filter Q l.
Proof.
  induction l as [|a l IH]; intros Hext; [done|].
  rewrite !filter_cons.
  rewrite IH by (intros x Hx; apply Hext; by apply elem_of_cons; right).
  apply decide_ext, Hext, elem_of_cons. by left.
Qed.

Lemma is_current_registry name : is_current name = true ↔ name ∈ REGISTRY.
Proof.
  unfold is_current, REGISTRY.
  rewrite !elem_of_cons, elem_of_nil, !orb_true_iff, !bool_decide_eq_true.
  tauto.
Qed.

Lemma delete_test_current name :
  bool_decide (name ≠ STATIC_CACHE) && bool_decide (name ≠ API_CACHE)
  && bool_decide (name ≠ DYNAMIC_CACHE) = negb (is_current name).
Proof. unfold is_current. by repeat case_bool_decide. Qed.

Lemma activate_loop names cs tr :
  for_each
    (λ cacheName,
       when (bool_decide (cacheName ≠ STATIC_CACHE)
             && bool_decide (cacheName ≠ API_CACHE)
             && bool_decide (cacheName ≠ DYNAMIC_CACHE))
         (console_log "Deleting old cache:" [ArgString cacheName] ;;
          caches_delete_task cacheName)%task)
    names (mkWorld cs tr)
  = (Normal tt,
     mkWorld (filter (λ p, is_current p.1 = true ∨ p.1 ∉ names) cs)
             (tr ++ deletion_events names)).
Proof.
  revert cs tr. induction names as [|n names IH]; intros cs tr.
  - cbn [for_each ret]. unfold deletion_events. cbn [mbind list_bind].
    rewrite app_nil_r. f_equal. f_equal.
    induction cs as [|p cs IHcs]; [done|].
    rewrite filter_cons, decide_True by (right; apply not_elem_of_nil).
    by rewrite <- IHcs.
  - cbn [for_each]. unfold bind at 1. rewrite delete_test_current.
    unfold deletion_events. cbn [mbind list_bind]. fold (deletion_events names).
    destruct (is_current n) eqn:Hcur; cbn [negb when].
    + cbn [ret]. rewrite IH. cbn [app]. f_equal. f_equal.
      apply list_filter_iff. intros p. rewrite not_elem_of_cons.
      split; [|tauto]. intros [?|?]; [by left|].
      destruct (decide (p.1 = n)) as [->|]; [by left|by right].
    + run_task. rewrite IH. rewrite <- !app_assoc. cbn [app]. f_equal. f_equal.
      unfold caches_delete. rewrite list_filter_filter.
      apply list_filter_iff. intros p. rewrite not_elem_of_cons.
      split; [tauto|]. intros [Hp|[? ?]]; [|tauto].
      split; [by left|]. intros Heq. rewrite Heq in Hp. congruence.
Qed.

(** C3 (as the worker behaves).  Activation deletes exactly the tiers whose
    name is not in the registry and keeps, with their contents and in their
    order, those whose name is; the names left are the present names that
    are in the registry.  [clients.claim()] is called after the
    deletions. *)
Theorem activate_keeps_current_tiers w :
  onActivate w
  = (Normal tt,
     mkWorld (filter (λ p, p.1 ∈ REGISTRY) (caches w))
       (trace w ++ [ConsoleLog "Service Worker activating..." []]
                ++ deletion_events (caches_keys (caches w))
                ++ [ConsoleLog "Service Worker activated" []; ClientsClaim]))
  ∧ (∀ name,
       name ∈ caches_keys (caches (onActivate w).2)
       ↔ name ∈ caches_keys (caches w) ∧ name ∈ REGISTRY)
  ∧ (∀ name,
       CacheDelete name ∈ deletion_events (caches_keys (caches w))
       ↔ name ∈ caches_keys (caches w) ∧ name ∉ REGISTRY).
Proof.
  assert (Hrun : onActivate w
    = (Normal tt,
       mkWorld (filter (λ p, p.1 ∈ REGISTRY) (caches w))
         (trace w ++ [ConsoleLog "Service Worker activating..." []]
                  ++ deletion_events (caches_keys (caches w))
                  ++ [ConsoleLog "Service Worker activated" []; ClientsClaim]))).
  { destruct w as [cs tr]. unfold onActivate.
    unfold bind at 1. unfold console_log at 1. unfold emit at 1.
    unfold bind at 1. unfold caches_keys_task, read_caches.
    unfold bind at 1. cbn [caches trace]. rewrite activate_loop.
    run_task. rewrite <- !app_assoc. cbn [app]. f_equal. f_equal.
    apply filter_ext_in. intros p Hp. rewrite is_current_registry.
    split; [|tauto]. intros [?|Hn]; [done|].
    exfalso. apply Hn. unfold caches_keys. by apply list_elem_of_fmap_2. }
  split; [done|]. rewrite Hrun. cbn [snd caches]. split.
  - intros name. unfold caches_keys. rewrite !list_elem_of_fmap. split.
    + intros (p & -> & Hp). apply list_elem_of_filter in Hp as [? ?]. eauto.
    + intros [(p & -> & Hp) ?]. exists p. split; [done|].
      by apply list_elem_of_filter.
  - intros name. unfold deletion_events. rewrite list_elem_of_bind.
    rewrite <- is_current_registry. split.
    + intros (n & Hin & Hn). destruct (is_current n) eqn:Hcur.
      * by apply elem_of_nil in Hin.
      * rewrite !elem_of_cons, elem_of_nil in Hin.
        destruct Hin as [?|[[= ->]|[]]]; [done|]. split; [done|congruence].
    + intros [Hn Hcur]. exists name. split; [|done].
      destruct (is_current name); [done|].
      rewrite !elem_of_cons. right. by left.
Qed.

(** An activation on which a registry tier is absent afterwards: only the
    static tier and a stale tier are present, and only the static tier is
    left. *)
Lemma activate_does_not_create_tiers :
  caches_keys
    (caches (onActivate (mkWorld [("static-v1", ∅); ("legacy-v0", ∅)] [])).2)
  = ["static-v1"]
  ∧ "api-v1" ∈ REGISTRY
  ∧ "api-v1" ∉ caches_keys
      (caches (onActivate (mkWorld [("static-v1", ∅); ("legacy-v0", ∅)] [])).2).
Proof.
  assert (Hkeys : caches_keys
    (caches (onActivate (mkWorld [("static-v1", ∅); ("legacy-v0", ∅)] [])).2)
    = ["static-v1"]) by (vm_compute; reflexivity).
  rewrite Hkeys. split; [done|]. split.
  - unfold REGISTRY. rewrite !elem_of_cons. right. by left.
  - by rewrite list_elem_of_singleton.
Qed.

(** ** Background sync *)

Section Replay.

Variable network : Request → FetchResult.

Lemma sync_turn action w :
  try_catch
    (syncAction network action ;; removePendingAction (action_id action))%task
    (λ error,
       console_error "Failed to sync action:" [ArgAction action; ArgError error])
    w
  = (Normal tt, mkWorld (caches w) (trace w ++ replay_events network action)).
Proof.
  destruct w as [cs tr]. unfold replay_events, answered_ok, sync_error.
  run_task. destruct (network (action_request action)) as [r|e].
  - destruct (ok r); cbn; by rewrite <- !app_assoc.
  - by rewrite <- !app_assoc.
Qed.

Lemma syncAll_run batch w :
  syncAll network batch w
  = (Normal tt,
     mkWorld (caches w) (trace w ++ (batch ≫= replay_events network))).
Proof.
  revert w. induction batch as [|a batch IH]; intros [cs tr].
  - cbn. by rewrite app_nil_r.
  - unfold syncAll in *. cbn [for_each]. unfold bind at 1.
    rewrite sync_turn. rewrite IH. cbn [caches trace mbind list_bind].
    by rewrite <- app_assoc.
Qed.

Lemma fetched_replay batch :
  fetched (batch ≫= replay_events network) = action_request <$> batch.
Proof.
  induction batch as [|a batch IH]; [done|].
  cbn [mbind list_bind fmap list_fmap]. rewrite fetched_app, IH.
  unfold replay_events. by destruct (answered_ok _ _).
Qed.

Lemma removals_replay batch :
  removals (batch ≫= replay_events network)
  = action_id <$> filter (λ a, answered_ok network (action_request a) = true) batch.
Proof.
  induction batch as [|a batch IH]; [done|].
  cbn [mbind list_bind]. rewrite removals_app, IH, filter_cons.
  unfold replay_events.
  destruct (answered_ok _ _); [rewrite decide_True by done|rewrite decide_False by done];
    done.
Qed.

Lemma queue_after_replay batch :
  NoDup (action_id <$> batch) →
  queue_after batch (batch ≫= replay_events network)
  = filter (λ a, answered_ok network (action_request a) = false) batch.
Proof.
  intros Hnd. unfold queue_after. rewrite removals_replay.
  apply filter_ext_in. intros a Ha. rewrite list_elem_of_fmap. split.
  - intros Hn. destruct (answered_ok network (action_request a)) eqn:Hok; [|done].
    exfalso. apply Hn. exists a. split; [done|]. by apply list_elem_of_filter.
  - intros Hfail (b & Hid & Hb). apply list_elem_of_filter in Hb as [Hok Hb].
    assert (a = b) as ->; [|congruence].
    clear Hfail Hok. induction batch as [|c batch IH]; [by apply elem_of_nil in Ha|].
    cbn in Hnd. apply NoDup_cons in Hnd as [Hc Hnd].
    apply elem_of_cons in Ha as [->|Ha]; apply elem_of_cons in Hb as [->|Hb];
      try done.
    + exfalso. apply Hc. rewrite Hid. by apply list_elem_of_fmap_2.
    + exfalso. apply Hc. rewrite <- Hid. by apply list_elem_of_fmap_2.
    + by apply IH.
Qed.

End Replay.

(** As the worker stands, [getPendingActions] answers no action: a sync
    makes no network call and logs its completion. *)
Lemma doBackgroundSync_run (network : Request → FetchResult) w :
  doBackgroundSync network w
  = (Normal tt,
     mkWorld (caches w) (trace w ++ [ConsoleLog "Background sync completed" []])).
Proof. by destruct w. Qed.

(** C4.  The replay loop, on any batch: every action is replayed, in the
    order of the batch; [removePendingAction] is called with the identifiers
    of exactly the actions whose replay was answered with a 2xx response; a
    replay answered with another status or failing is logged and the loop
    goes on.  With identifiers that are distinct, the actions left in the
    queue are those whose replay did not succeed. *)
Theorem replay_removes_exactly_successes (network : Request → FetchResult)
    (batch : list Action) w :
  NoDup (action_id <$> batch) →
  ∃ events,
    syncAll network batch w = (Normal tt, mkWorld (caches w) (trace w ++ events))
    ∧ events = batch ≫= replay_events network
    ∧ fetched events = action_request <$> batch
    ∧ removals events
      = action_id
        <$> filter (λ a, answered_ok network (action_request a) = true) batch
    ∧ queue_after batch events
      = filter (λ a, answered_ok network (action_request a) = false) batch.
Proof.
  intros Hnd. exists (batch ≫= replay_events network).
  split; [apply syncAll_run|]. split; [done|].
  split; [apply fetched_replay|]. split; [apply removals_replay|].
  by apply queue_after_replay.
Qed.

(** ** Installation *)

Section Install.

Variable self_origin : string.
Variable network : Request → FetchResult.

Lemma for_each_emit {A} (f : A → Event) (l : list A) cs tr :
  for_each (λ x, emit (f x)) l (mkWorld cs tr)
  = (Normal tt, mkWorld cs (tr ++ (f <$> l))).
Proof.
  revert tr. induction l as [|x l IH]; intros tr.
  - cbn. by rewrite app_nil_r.
  - cbn [for_each]. unfold bind, emit at 1. cbn [caches trace].
    rewrite IH. cbn [fmap list_fmap]. by rewrite <- app_assoc.
Qed.

Lemma all_ok_failure rs r :
  r ∈ rs → answered_ok network r = false → all_ok network rs = None.
Proof.
  unfold answered_ok. intros Hin Hfail.
  induction rs as [|r' rs IH]; [by apply elem_of_nil in Hin|].
  cbn [all_ok]. apply elem_of_cons in Hin as [<-|Hin].
  - destruct (network r); [by rewrite Hfail|done].
  - rewrite (IH Hin). destruct (network r'); [|done]. by destruct (ok _).
Qed.

Lemma all_ok_success rs :
  (∀ r, r ∈ rs → answered_ok network r = true) →
  ∃ l, all_ok network rs = Some l
       ∧ l.*1 = rs
       ∧ ∀ p, p ∈ l → network p.1 = NetResponse p.2.
Proof.
  unfold answered_ok. induction rs as [|r rs IH]; intros Hall.
  - exists []. repeat split. intros p Hp. by apply elem_of_nil in Hp.
  - destruct IH as (l & Hl & Hfst & Hnet).
    { intros r' Hr'. apply Hall. apply elem_of_cons. by right. }
    pose proof (Hall r (proj2 (elem_of_cons _ _ _) (or_introl eq_refl))) as Hr.
    destruct (network r) as [resp|] eqn:Hn; [|done].
    exists ((r, resp) :: l). cbn [all_ok]. rewrite Hn, Hr, Hl. cbn.
    split; [done|]. split; [by rewrite Hfst|].
    intros p Hp. apply elem_of_cons in Hp as [->|Hp]; [done|by apply Hnet].
Qed.

Lemma all_ok_requests rs l :
  all_ok network rs = Some l → l.*1 = rs.
Proof.
  revert l. induction rs as [|r rs IH]; intros l; cbn [all_ok].
  - by intros [= <-].
  - destruct (network r) as [resp|]; [|done]. destruct (ok resp); [|done].
    destruct (all_ok network rs) as [l'|]; [|done].
    intros [= <-]. cbn. by rewrite (IH l').
Qed.

(** The writes of [addAll], as one update of the storage. *)
Lemma put_all_run cache (l : list (Request * Response)) cs tr :
  for_each (λ p, cache_put_task cache p.1 p.2) l (mkWorld cs tr)
  = (Normal tt,
     mkWorld (foldl (λ cs p, cache_put cache (request_key p.1) p.2 cs) cs l)
             (tr ++ ((λ p, CachePut cache (request_key p.1)) <$> l))).
Proof.
  revert cs tr. induction l as [|p l IH]; intros cs tr.
  - cbn. by rewrite app_nil_r.
  - cbn [for_each]. unfold bind at 1. run_task. rewrite IH.
    cbn [fmap list_fmap foldl]. by rewrite <- app_assoc.
Qed.

Lemma cache_lookup_put_all cache (l : list (Request * Response)) cs :
  cache_lookup cache (foldl (λ cs p, cache_put cache (request_key p.1) p.2 cs) cs l)
  = (λ c : Cache, foldl (λ c p, <[request_key p.1 := p.2]> c) c l)
    <$> cache_lookup cache cs.
Proof.
  revert cs. induction l as [|p l IH]; intros cs; cbn [foldl].
  - by destruct (cache_lookup cache cs).
  - rewrite IH, cache_lookup_put. by destruct (cache_lookup cache cs).
Qed.

Lemma lookup_insert_all_other (l : list (Request * Response)) (c : Cache) key :
  key ∉ request_key <$> l.*1 →
  foldl (λ c p, <[request_key p.1 := p.2]> c) c l !! key = c !! key.
Proof.
  revert c. induction l as [|p l IH]; intros c Hk; [done|].
  cbn in Hk. apply not_elem_of_cons in Hk as [Hne Hk].
  cbn [foldl]. rewrite IH by done. by apply lookup_insert_ne.
Qed.

Lemma lookup_insert_all (l : list (Request * Response)) (c : Cache) p :
  NoDup (request_key <$> l.*1) → p ∈ l →
  foldl (λ c p, <[request_key p.1 := p.2]> c) c l !! request_key p.1 = Some p.2.
Proof.
  revert c. induction l as [|q l IH]; intros c Hnd Hp;
    [by apply elem_of_nil in Hp|].
  cbn in Hnd. apply NoDup_cons in Hnd as [Hq Hnd]. cbn [foldl].
  apply elem_of_cons in Hp as [->|Hp].
  - rewrite lookup_insert_all_other by done. apply lookup_insert_eq.
  - by apply IH.
Qed.

End Install.

Section InstallRun.

Variable self_origin : string.
Variable network : Request → FetchResult.

Lemma install_failure_run w :
  all_ok network (asset_request self_origin <$> STATIC_ASSETS) = None →
  onInstall self_origin network w
  = (Normal tt,
     mkWorld (caches_open STATIC_CACHE (caches w))
       (trace w
        ++ [ConsoleLog "Service Worker installing..." [];
            ConsoleLog "Caching static assets" []]
        ++ (NetFetch <$> (asset_request self_origin <$> STATIC_ASSETS))
        ++ [ConsoleError "Failed to cache static assets:"
              [ArgError (TypeError "Request failed")]])).
Proof.
  intros Hall. destruct w as [cs tr].
  unfold onInstall, cache_addAll. rewrite Hall.
  unfold bind at 1. unfold console_log at 1. unfold emit at 1.
  unfold try_catch. unfold bind at 1. unfold caches_open_task at 1.
  unfold bind at 1. unfold update_caches, ret at 1. cbn [caches trace].
  unfold bind at 1. unfold console_log at 1. unfold emit at 1.
  cbn [caches trace]. unfold bind at 1. unfold bind at 1.
  rewrite for_each_emit. run_task. by rewrite <- !app_assoc.
Qed.

Lemma install_success_run w l :
  all_ok network (asset_request self_origin <$> STATIC_ASSETS) = Some l →
  onInstall self_origin network w
  = (Normal tt,
     mkWorld
       (foldl (λ cs p, cache_put STATIC_CACHE (request_key p.1) p.2 cs)
          (caches_open STATIC_CACHE (caches w)) l)
       (trace w
        ++ [ConsoleLog "Service Worker installing..." [];
            ConsoleLog "Caching static assets" []]
        ++ (NetFetch <$> (asset_request self_origin <$> STATIC_ASSETS))
        ++ ((λ p, CachePut STATIC_CACHE (request_key p.1)) <$> l)
        ++ [ConsoleLog "Static assets cached successfully" []; SkipWaiting])).
Proof.
  intros Hall. destruct w as [cs tr].
  unfold onInstall, cache_addAll. rewrite Hall.
  unfold bind at 1. unfold console_log at 1. unfold emit at 1.
  unfold try_catch. unfold bind at 1. unfold caches_open_task at 1.
  unfold bind at 1. unfold update_caches, ret at 1. cbn [caches trace].
  unfold bind at 1. unfold console_log at 1. unfold emit at 1.
  cbn [caches trace]. unfold bind at 1. unfold bind at 1.
  rewrite for_each_emit. rewrite put_all_run. run_task.
  by rewrite <- !app_assoc.
Qed.

Lemma append_empty_r (s : string) : s +:+ "" = s.
Proof.
  induction s as [|a s IH]; [done|].
  change (String a (s +:+ "") = String a s). by rewrite IH.
Qed.

Lemma append_cancel_l (o a b : string) : o +:+ a = o +:+ b → a = b.
Proof. apply String.app_inj. Qed.

Lemma asset_keys_distinct :
  NoDup (request_key <$> (asset_request self_origin <$> STATIC_ASSETS)).
Proof.
  rewrite <- list_fmap_compose. apply NoDup_fmap_2_strong.
  - intros a b _ _. unfold compose, request_key, asset_request, href. cbn.
    rewrite !append_empty_r. apply append_cancel_l.
  - apply (bool_decide_unpack _). vm_compute. exact I.
Qed.

(** Opening a tier changes the contents of no tier. *)
Lemma cache_match_open_any name tier key cs :
  cache_match tier key (caches_open name cs) = cache_match tier key cs.
Proof.
  destruct (decide (tier = name)) as [->|Hne]; [apply cache_match_open|].
  unfold cache_match, caches_open. destruct (caches_has name cs); [done|].
  f_equal. induction cs as [|[n c] cs IH]; cbn.
  - by rewrite decide_False.
  - case_decide; [done|apply IH].
Qed.

(** The static tier after the writes of a successful [addAll] holds every
    request of the batch. *)
Lemma install_holds_asset w l path :
  all_ok network (asset_request self_origin <$> STATIC_ASSETS) = Some l →
  path ∈ STATIC_ASSETS →
  ∃ resp,
    cache_match STATIC_CACHE (request_key (asset_request self_origin path))
      (foldl (λ cs p, cache_put STATIC_CACHE (request_key p.1) p.2 cs)
         (caches_open STATIC_CACHE (caches w)) l) = Some resp.
Proof.
  intros Hl Hin. pose proof (all_ok_requests _ _ _ Hl) as Hfst.
  assert (asset_request self_origin path ∈ l.*1) as (p & Hp1 & Hp)%list_elem_of_fmap.
  { rewrite Hfst. by apply list_elem_of_fmap_2. }
  exists p.2. rewrite Hp1. unfold cache_match.
  rewrite cache_lookup_put_all, cache_lookup_open_same. cbn.
  apply lookup_insert_all; [|done].
  rewrite Hfst. apply asset_keys_distinct.
Qed.

End InstallRun.

(** C1 (as the worker behaves).  The promise given to [waitUntil] always
    fulfils.  When the request for a manifest entry fails or is answered
    outside 200-299, the install writes nothing: the static tier is created
    when absent and every tier holds what it held before, the failure is
    logged and [skipWaiting] is not called.  When every entry is answered
    with a 2xx response, every entry is in the static tier afterwards and
    [skipWaiting] is the last call.  An install that starts from a static
    tier holding no manifest entry therefore ends with every entry or with
    none; one that starts from a static tier already holding some of them
    and fails ends with just those. *)
Theorem install_all_or_nothing (self_origin : string)
    (network : Request → FetchResult) w :
  (onInstall self_origin network w).1 = Normal tt
  ∧ (∀ path,
       path ∈ STATIC_ASSETS →
       answered_ok network (asset_request self_origin path) = false →
       onInstall self_origin network w
       = (Normal tt,
          mkWorld (caches_open STATIC_CACHE (caches w))
            (trace w
             ++ [ConsoleLog "Service Worker installing..." [];
                 ConsoleLog "Caching static assets" []]
             ++ (NetFetch <$> (asset_request self_origin <$> STATIC_ASSETS))
             ++ [ConsoleError "Failed to cache static assets:"
                   [ArgError (TypeError "Request failed")]]))
       ∧ ∀ tier key,
           cache_match tier key (caches (onInstall self_origin network w).2)
           = cache_match tier key (caches w))
  ∧ ((∀ path,
        path ∈ STATIC_ASSETS →
        answered_ok network (asset_request self_origin path) = true) →
     (∀ path,
        path ∈ STATIC_ASSETS →
        ∃ resp,
          network (asset_request self_origin path) = NetResponse resp
          ∧ cache_match STATIC_CACHE
              (request_key (asset_request self_origin path))
              (caches (onInstall self_origin network w).2) = Some resp)
     ∧ last (trace (onInstall self_origin network w).2) = Some SkipWaiting)
  ∧ ((∀ path,
        path ∈ STATIC_ASSETS →
        cache_match STATIC_CACHE (request_key (asset_request self_origin path))
          (caches w) = None) →
     (∀ path,
        path ∈ STATIC_ASSETS →
        is_Some (cache_match STATIC_CACHE
                   (request_key (asset_request self_origin path))
                   (caches (onInstall self_origin network w).2)))
     ∨ (∀ path,
          path ∈ STATIC_ASSETS →
          cache_match STATIC_CACHE
            (request_key (asset_request self_origin path))
            (caches (onInstall self_origin network w).2) = None)).
Proof.
  split; [|split; [|split]].
  - destruct (all_ok network (asset_request self_origin <$> STATIC_ASSETS))
      as [l|] eqn:Hall.
    + by rewrite (install_success_run _ _ _ _ Hall).
    + by rewrite (install_failure_run _ _ _ Hall).
  - intros path Hin Hfail.
    assert (Hall : all_ok network (asset_request self_origin <$> STATIC_ASSETS)
                   = None).
    { apply (all_ok_failure network _ (asset_request self_origin path)); [|done].
      by apply list_elem_of_fmap_2. }
    rewrite (install_failure_run _ _ _ Hall). split; [done|].
    intros tier key. cbn [snd caches]. apply cache_match_open_any.
  - intros Hall.
    destruct (all_ok_success network (asset_request self_origin <$> STATIC_ASSETS))
      as (l & Hl & Hfst & Hnet).
    { intros r (path & -> & Hin)%list_elem_of_fmap. by apply Hall. }
    rewrite (install_success_run _ _ _ _ Hl). cbn [snd caches trace]. split.
    + intros path Hin.
      assert (asset_request self_origin path ∈ l.*1) as (p & Hp1 & Hp)%list_elem_of_fmap.
      { rewrite Hfst. by apply list_elem_of_fmap_2. }
      exists p.2. rewrite Hp1. split; [by apply Hnet|].
      unfold cache_match.
      rewrite cache_lookup_put_all, cache_lookup_open_same. cbn.
      apply lookup_insert_all; [|done].
      rewrite Hfst. apply asset_keys_distinct.
    + rewrite !app_assoc.
      change [ConsoleLog "Static assets cached successfully" []; SkipWaiting]
        with ([ConsoleLog "Static assets cached successfully" []] ++ [SkipWaiting]).
      rewrite app_assoc. apply last_snoc.
  - intros Hnone.
    destruct (all_ok network (asset_request self_origin <$> STATIC_ASSETS))
      as [l|] eqn:Hall.
    + left. intros path Hin. rewrite (install_success_run _ _ _ _ Hall).
      cbn [snd caches].
      destruct (install_holds_asset self_origin network w l path Hall Hin)
        as [resp Hresp].
      by exists resp.
    + right. intros path Hin. rewrite (install_failure_run _ _ _ Hall).
      cbn [snd caches]. rewrite cache_match_open. by apply Hnone.
Qed.

(** An install during which the request for the icon fails: the promise
    given to [waitUntil] fulfils all the same, with an empty static tier. *)
Lemma install_fulfils_when_a_fetch_fails :
  network_without_icon (asset_request sample_origin "/favicon.ico")
  = NetFailure (TypeError "Failed to fetch")
  ∧ "/favicon.ico" ∈ STATIC_ASSETS
  ∧ (onInstall sample_origin network_without_icon empty_world).1 = Normal tt
  ∧ caches (onInstall sample_origin network_without_icon empty_world).2
    = [(STATIC_CACHE, ∅)].
Proof.
  split; [reflexivity|]. split.
  - unfold STATIC_ASSETS. rewrite !elem_of_cons. tauto.
  - split; vm_compute; reflexivity.
Qed.

(** * Properties of the data-processing worker *)

Import DataProcessor.

Section ListenerProperties.

Context {JSData JSResult Id : Type}.
Variable portfolioData : JSData → Completion PortfolioData.
Variables processMarketData calculatePerformanceMetrics processChartData
  analyzeStockTrends calculateRiskMetrics processWatchlistAnalysis
  : JSData → Completion JSResult.
Variable stack_of : JSError → string.

Local Abbreviation listen :=
  (onMessage portfolioData processMarketData calculatePerformanceMetrics
     processChartData analyzeStockTrends calculateRiskMetrics
     processWatchlistAnalysis stack_of).

Local Abbreviation route :=
  (dispatch portfolioData processMarketData calculatePerformanceMetrics
     processChartData analyzeStockTrends calculateRiskMetrics
     processWatchlistAnalysis).

Lemma dispatch_unknown (type : string) (data : JSData) :
  type ∉ KNOWN_TYPES →
  route type data = Throw (Error ("Unknown message type: " +:+ type)).
Proof.
  unfold KNOWN_TYPES. rewrite !not_elem_of_cons.
  intros (H1 & H2 & H3 & H4 & H5 & H6 & H7 & _). unfold dispatch.
  by rewrite !(proj2 (String.eqb_neq _ _)).
Qed.

Lemma dispatch_portfolio (data : JSData) d :
  portfolioData data = Normal d →
  route "CALCULATE_PORTFOLIO_VALUE" data
  = match calculatePortfolioValue d with
    | Normal r => Normal (PortfolioResult r)
    | Throw e => Throw e
    end.
Proof. intros Hd. unfold dispatch. cbn. by rewrite Hd. Qed.

(** C6.  Every request gets exactly one reply, carrying the identifier of
    the request; it is a SUCCESS or an ERROR reply, and a request whose type
    is none of the seven known ones gets the ERROR reply for an unknown
    message type. *)
Theorem every_request_gets_one_reply (m : @Message JSData Id) :
  ∃ reply,
    listen m = [reply]
    ∧ reply_id reply = msg_id m
    ∧ ((∃ result, reply = SUCCESS (msg_id m) result)
       ∨ (∃ message stack, reply = ERROR (msg_id m) message stack))
    ∧ (msg_type m ∉ KNOWN_TYPES →
       reply
       = ERROR (msg_id m) ("Unknown message type: " +:+ msg_type m)
           (stack_of (Error ("Unknown message type: " +:+ msg_type m)))).
Proof.
  unfold onMessage.
  destruct (route (msg_type m) (msg_data m)) as [result|error] eqn:Hroute.
  - exists (SUCCESS (msg_id m) result). repeat split; [by eauto|].
    intros Hunknown. by rewrite (dispatch_unknown _ _ Hunknown) in Hroute.
  - exists (ERROR (msg_id m) (error_message error) (stack_of error)).
    repeat split; [by eauto|].
    intros Hunknown. rewrite (dispatch_unknown _ _ Hunknown) in Hroute.
    by injection Hroute as <-.
Qed.

(** C5 (as the worker behaves).  A CALCULATE_PORTFOLIO_VALUE request whose
    data holds the holdings
    [{symbol: "X", quantity: 10, averagePrice: 5, currentPrice: 7}] and a
    [currentPrices] object without an entry for X gets a SUCCESS reply whose
    summary has totalValue 70, totalCost 50, totalGainLoss 20 and
    totalGainLossPercent 40. *)
Theorem portfolio_value_of_single_holding (m : @Message JSData Id) d prices :
  msg_type m = "CALCULATE_PORTFOLIO_VALUE" →
  portfolioData (msg_data m) = Normal d →
  holdings d = Some [holdingX] →
  currentPrices d = Some prices →
  prices !! "X" = None →
  ∃ r,
    listen m = [SUCCESS (msg_id m) (PortfolioResult r)]
    ∧ totalValue (summary r) = 70%float
    ∧ totalCost (summary r) = 50%float
    ∧ totalGainLoss (summary r) = 20%float
    ∧ totalGainLossPercent (summary r) = 40%float.
Proof.
  intros Htype Hdata Hholdings Hprices HX.
  unfold onMessage. rewrite Htype, (dispatch_portfolio _ _ Hdata).
  unfold calculatePortfolioValue. rewrite Hholdings, Hprices.
  cbn [mapHoldings processHolding holdingX symbol]. rewrite HX.
  eexists. split; [reflexivity|].
  repeat split; vm_compute; reflexivity.
Qed.

End ListenerProperties.

(** The request of the example with nothing but its holdings: reading the
    price of X from the absent [currentPrices] throws, and the reply is an
    ERROR. *)
Lemma portfolio_value_without_price_table :
  sample_listener
    (mkMessage "CALCULATE_PORTFOLIO_VALUE"
       (mkPortfolioData (Some [holdingX]) None None) 1)
  = [ERROR 1 "Cannot read properties of undefined (reading 'X')" ""].
Proof. vm_compute. reflexivity. Qed.

(** * The properties on sample runs *)

Ltac by_computation := apply (bool_decide_unpack _); vm_compute; exact I.

(** C1 on three installs: one during which the icon cannot be fetched, one
    during which every entry is answered, and one during which the icon
    cannot be fetched while the static tier already holds the script. *)
Lemma install_all_or_nothing_sample :
  "/favicon.ico" ∈ STATIC_ASSETS
  ∧ answered_ok network_without_icon (asset_request sample_origin "/favicon.ico")
    = false
  ∧ caches (onInstall sample_origin network_without_icon empty_world).2
    = [(STATIC_CACHE, ∅)]
  ∧ (∀ path,
       path ∈ STATIC_ASSETS →
       answered_ok network_up (asset_request sample_origin path) = true)
  ∧ last (trace (onInstall sample_origin network_up empty_world).2)
    = Some SkipWaiting
  ∧ (∀ path,
       path ∈ STATIC_ASSETS →
       cache_match STATIC_CACHE (request_key (asset_request sample_origin path))
         (caches empty_world) = None)
  ∧ ((∀ path,
        path ∈ STATIC_ASSETS →
        is_Some (cache_match STATIC_CACHE
                   (request_key (asset_request sample_origin path))
                   (caches (onInstall sample_origin network_without_icon
                              empty_world).2)))
     ∨ (∀ path,
          path ∈ STATIC_ASSETS →
          cache_match STATIC_CACHE
            (request_key (asset_request sample_origin path))
            (caches (onInstall sample_origin network_without_icon
                       empty_world).2) = None))
  ∧ (onInstall sample_origin network_without_icon world_with_script).1
    = Normal tt
  ∧ cache_match STATIC_CACHE
      (request_key (asset_request sample_origin "/static/js/bundle.js"))
      (caches (onInstall sample_origin network_without_icon
                 world_with_script).2)
    = Some response_200
  ∧ cache_match STATIC_CACHE
      (request_key (asset_request sample_origin "/favicon.ico"))
      (caches (onInstall sample_origin network_without_icon
                 world_with_script).2)
    = None.
Proof.
  pose proof (install_all_or_nothing sample_origin network_without_icon empty_world)
    as (_ & Hfail & _ & Hfirst).
  pose proof (install_all_or_nothing sample_origin network_up empty_world)
    as (_ & _ & Hok & _).
  pose proof (install_all_or_nothing sample_origin network_without_icon
                world_with_script) as (Hfulfils & Hpartial & _).
  assert (Hin : "/favicon.ico" ∈ STATIC_ASSETS) by by_computation.
  assert (Hnone : ∀ path,
            path ∈ STATIC_ASSETS →
            cache_match STATIC_CACHE
              (request_key (asset_request sample_origin path))
              (caches empty_world) = None) by (intros path _; reflexivity).
  split; [exact Hin|]. split; [reflexivity|]. split.
  { rewrite (proj1 (Hfail "/favicon.ico" Hin eq_refl)). reflexivity. }
  split; [intros path _; reflexivity|]. split.
  { apply Hok. intros path _. reflexivity. }
  split; [exact Hnone|]. split; [exact (Hfirst Hnone)|].
  split; [exact Hfulfils|].
  destruct (Hpartial "/favicon.ico" Hin eq_refl) as [_ Hsame].
  rewrite !Hsame. split; vm_compute; reflexivity.
Defined.

(** C7 on a script that is not cached yet and is answered with a 200. *)
Lemma cache_first_policy_sample :
  classify (sample_get "/static/js/bundle.js" []) = Normal (Some CacheFirst)
  ∧ caches_match (request_key (sample_get "/static/js/bundle.js" []))
      (caches empty_world) = None
  ∧ network_up (sample_get "/static/js/bundle.js" []) = NetResponse response_200
  ∧ ok response_200 = true
  ∧ cache_match STATIC_CACHE (request_key (sample_get "/static/js/bundle.js" []))
      (caches (onFetch network_up (sample_get "/static/js/bundle.js" [])
                 empty_world).2)
    = Some response_200
  ∧ fetched (trace (onFetch network_up (sample_get "/static/js/bundle.js" [])
                      empty_world).2)
    = [sample_get "/static/js/bundle.js" []].
Proof.
  pose proof (cache_first_policy network_up (sample_get "/static/js/bundle.js" [])
                empty_world eq_refl) as (_ & Hmiss & _).
  destruct (Hmiss response_200 eq_refl eq_refl eq_refl) as (_ & Hput & Hnet).
  repeat split; first [exact Hput | exact Hnet | reflexivity].
Defined.

(** C2 on a critical API path: offline without a snapshot, and online. *)
Lemma network_first_policy_sample :
  classify (sample_get "/api/stocks/top-gainers" []) = Normal (Some NetworkFirst)
  ∧ network_down (sample_get "/api/stocks/top-gainers" [])
    = NetFailure (TypeError "Failed to fetch")
  ∧ caches_match (request_key (sample_get "/api/stocks/top-gainers" []))
      (caches empty_world) = None
  ∧ isCriticalAPI (sample_get "/api/stocks/top-gainers" []) = true
  ∧ (onFetch network_down (sample_get "/api/stocks/top-gainers" []) empty_world).1
    = Normal (Responded (Some offlineJSONResponse))
  ∧ ok response_200 = true
  ∧ cache_match API_CACHE (request_key (sample_get "/api/stocks/top-gainers" []))
      (caches (onFetch network_up (sample_get "/api/stocks/top-gainers" [])
                 empty_world).2)
    = Some response_200.
Proof.
  pose proof (network_first_policy network_down
                (sample_get "/api/stocks/top-gainers" []) empty_world eq_refl)
    as (_ & Hoff).
  destruct (Hoff _ eq_refl) as (_ & _ & Hcritical & _).
  pose proof (network_first_policy network_up
                (sample_get "/api/stocks/top-gainers" []) empty_world eq_refl)
    as (Hon & _).
  destruct (Hon response_200 eq_refl eq_refl) as (_ & Hput).
  repeat split;
    first [exact (Hcritical eq_refl eq_refl) | exact Hput | reflexivity].
Defined.

(** C10 on an API request answered with a 500. *)
Lemma network_first_passes_error_status_sample :
  network_error_status (sample_get "/api/portfolio" []) = NetResponse response_500
  ∧ ok response_500 = false
  ∧ networkFirst network_error_status (sample_get "/api/portfolio" []) empty_world
    = (Normal response_500,
       mkWorld [] [NetFetch (sample_get "/api/portfolio" [])]).
Proof.
  split; [reflexivity|]. split; [reflexivity|].
  exact (network_first_passes_error_status network_error_status
           (sample_get "/api/portfolio" []) empty_world response_500
           eq_refl eq_refl).
Defined.

(** C8 on a page with a snapshot while the network is up, and on a page
    without one while the network is down. *)
Lemma stale_while_revalidate_policy_sample :
  classify (sample_get "/dashboard" [("accept", "text/html")])
  = Normal (Some StaleWhileRevalidate)
  ∧ cache_match DYNAMIC_CACHE
      (request_key (sample_get "/dashboard" [("accept", "text/html")]))
      (caches world_with_page) = Some snapshot_200
  ∧ (onFetch network_up (sample_get "/dashboard" [("accept", "text/html")])
       world_with_page).1
    = Normal (Responded (Some snapshot_200))
  ∧ cache_match DYNAMIC_CACHE
      (request_key (sample_get "/dashboard" [("accept", "text/html")]))
      (caches empty_world) = None
  ∧ (onFetch network_down (sample_get "/dashboard" [("accept", "text/html")])
       empty_world).1
    = Normal (Responded None).
Proof.
  pose proof (stale_while_revalidate_policy network_up
                (sample_get "/dashboard" [("accept", "text/html")])
                world_with_page eq_refl) as (Hhit & _).
  assert (Hsnap : cache_match DYNAMIC_CACHE
      (request_key (sample_get "/dashboard" [("accept", "text/html")]))
      (caches world_with_page) = Some snapshot_200) by (vm_compute; reflexivity).
  destruct (Hhit snapshot_200 Hsnap) as (Hfresh & _).
  pose proof (stale_while_revalidate_policy network_down
                (sample_get "/dashboard" [("accept", "text/html")])
                empty_world eq_refl) as (_ & Hmiss).
  destruct (Hmiss eq_refl) as (_ & Hdown).
  destruct (Hdown _ eq_refl) as (Hundefined & _).
  split; [reflexivity|]. split; [exact Hsnap|]. split.
  - rewrite (Hfresh response_200 eq_refl eq_refl). reflexivity.
  - split; [reflexivity|exact Hundefined].
Defined.

(** C4 on the batch of three actions whose second replay is refused: the
    first and the third leave the queue, the second stays. *)
Lemma replay_removes_exactly_successes_sample :
  NoDup (action_id <$> sample_batch)
  ∧ ∃ events,
      syncAll network_refusing_second sample_batch empty_world
      = (Normal tt, mkWorld [] events)
      ∧ fetched events = action_request <$> sample_batch
      ∧ removals events = [1; 3]
      ∧ queue_after sample_batch events = [sample_action 2 "/api/trades/2"].
Proof.
  assert (Hnd : NoDup (action_id <$> sample_batch)) by by_computation.
  split; [exact Hnd|].
  destruct (replay_removes_exactly_successes network_refusing_second
              sample_batch empty_world Hnd)
    as (events & Hrun & _ & Hfetched & Hremoved & Hqueue).
  exists events. split; [exact Hrun|]. split; [exact Hfetched|]. split.
  - rewrite Hremoved. vm_compute. reflexivity.
  - rewrite Hqueue. vm_compute. reflexivity.
Defined.

(** C5 on the request of the example with an empty [currentPrices]. *)
Lemma portfolio_value_of_single_holding_sample :
  (no_prices !! "X" = None)
  ∧ (∃ r,
      sample_listener
        (mkMessage "CALCULATE_PORTFOLIO_VALUE"
           (mkPortfolioData (Some [holdingX]) (Some no_prices) None) 1)
      = [SUCCESS 1 (PortfolioResult r)]
      ∧ totalValue (summary r) = 70%float
      ∧ totalCost (summary r) = 50%float
      ∧ totalGainLoss (summary r) = 20%float
      ∧ totalGainLossPercent (summary r) = 40%float).
Proof.
  split; [reflexivity|].
  exact (portfolio_value_of_single_holding Normal rejecting rejecting rejecting
           rejecting rejecting rejecting (λ _, "")
           (mkMessage "CALCULATE_PORTFOLIO_VALUE"
              (mkPortfolioData (Some [holdingX]) (Some no_prices) None) 1)
           (mkPortfolioData (Some [holdingX]) (Some no_prices) None) no_prices
           eq_refl eq_refl eq_refl eq_refl eq_refl).
Defined.

(** C6 on a request of an unknown type. *)
Lemma every_request_gets_one_reply_sample :
  ("PING" ∉ KNOWN_TYPES)
  ∧ sample_listener (mkMessage "PING" (mkPortfolioData None None None) 7)
    = [ERROR 7 "Unknown message type: PING" ""].
Proof.
  assert (Hunknown : "PING" ∉ KNOWN_TYPES) by by_computation.
  split; [exact Hunknown|].
  destruct (every_request_gets_one_reply Normal rejecting rejecting rejecting
              rejecting rejecting rejecting (λ _, "")
              (mkMessage "PING" (mkPortfolioData None None None) 7))
    as (reply & Hrun & _ & _ & Hreply).
  unfold sample_listener. rewrite Hrun, (Hreply Hunknown). reflexivity.
Defined.

(** * Further properties of the service worker *)

Section Outcomes.

Variable network : Request → FetchResult.

Lemma cacheFirst_returns request w :
  ∃ r, (cacheFirst network request w).1 = Normal r.
Proof.
  destruct w as [cs tr]. run_task.
  destruct (caches_match _ cs); [by eauto|].
  destruct (network request) as [resp|e]; [|by eauto].
  destruct (ok resp); by eauto.
Qed.

Lemma networkFirst_returns request w :
  ∃ r, (networkFirst network request w).1 = Normal r.
Proof.
  destruct w as [cs tr]. run_task.
  destruct (network request) as [resp|e].
  - destruct (ok resp); by eauto.
  - destruct (caches_match _ cs); [by eauto|].
    destruct (isCriticalAPI request); by eauto.
Qed.

(** A strategy that settles as a whole hands a response to the page. *)
Lemma respondWith_answers strategy w :
  (∃ r, (strategy w).1 = Normal r) →
  ∃ r, (respondWith strategy w).1 = Normal (Responded (Some r)).
Proof.
  intros [r Hr]. unfold respondWith, bind.
  destruct (strategy w) as [[r'|e] w']; [|done]. by eauto.
Qed.

(** What the page receives from [staleWhileRevalidate]: the snapshot of the
    dynamic tier when there is one, else the response of the network,
    whatever its status, else [undefined]. *)
Lemma revalidation_answer request w :
  (respondWithRevalidation (staleWhileRevalidate network request) w).1
  = Normal (Responded
      match cache_match DYNAMIC_CACHE (request_key request) (caches w) with
      | Some cached => Some cached
      | None =>
          match network request with
          | NetResponse resp => Some resp
          | NetFailure _ => None
          end
      end).
Proof.
  destruct w as [cs tr]. run_task. rewrite cache_match_open.
  destruct (cache_match _ _ cs) as [cached|].
  - destruct (network request) as [resp|e]; [destruct (ok resp)|]; done.
  - destruct (network request) as [resp|e]; [destruct (ok resp)|]; done.
Qed.

(** X1.  The outcomes of the fetch listener.  It leaves a request alone,
    without any effect, exactly when the method is not GET.  It throws
    exactly when the request is a GET request that is neither a static
    asset nor an API call and has no accept header.  In every other case it
    calls [respondWith] with a promise that does not reject.  That promise
    resolves to a response, except in exactly one case, in which it resolves
    to [undefined]: an HTML request that is neither a static asset nor an
    API call, has no snapshot in the dynamic tier, and whose fetch fails. *)
Theorem fetch_listener_outcomes request w :
  ((onFetch network request w).1 = Normal PassThrough
   ↔ req_method request ≠ "GET")
  ∧ (req_method request ≠ "GET" → (onFetch network request w).2 = w)
  ∧ ((∃ e, (onFetch network request w).1 = Throw e)
     ↔ req_method request = "GET"
       ∧ isStaticAsset request = false
       ∧ isAPIRequest request = false
       ∧ headers_get "accept" (req_headers request) = None)
  ∧ (req_method request = "GET" →
     (isStaticAsset request = true
      ∨ isAPIRequest request = true
      ∨ is_Some (headers_get "accept" (req_headers request))) →
     ∃ r, (onFetch network request w).1 = Normal (Responded r))
  ∧ ((onFetch network request w).1 = Normal (Responded None)
     ↔ req_method request = "GET"
       ∧ isStaticAsset request = false
       ∧ isAPIRequest request = false
       ∧ isHTMLRequest request = Normal true
       ∧ cache_match DYNAMIC_CACHE (request_key request) (caches w) = None
       ∧ ∃ e, network request = NetFailure e).
Proof.
  unfold onFetch, isHTMLRequest.
  destruct (String.eqb_spec (req_method request) "GET") as [Hget|Hother];
    cbn [negb].
  2:{ cbn. split; [done|]. split; [done|]. split.
      { split; [by intros [e ?]|]. by intros [? _]. }
      split; [done|]. split; [done|]. by intros [? _]. }
  destruct (isStaticAsset request) eqn:Hstatic;
    [|destruct (isAPIRequest request) eqn:Hapi].
  - destruct (respondWith_answers _ w (cacheFirst_returns request w)) as [r Hr].
    rewrite Hr. split; [by split|]. split; [done|]. split.
    { split; [by intros [e ?]|]. by intros (_ & ? & _). }
    split; [by eauto|]. split; [done|]. by intros (_ & ? & _).
  - destruct (respondWith_answers _ w (networkFirst_returns request w)) as [r Hr].
    rewrite Hr. split; [by split|]. split; [done|]. split.
    { split; [by intros [e ?]|]. by intros (_ & _ & ? & _). }
    split; [by eauto|]. split; [done|]. by intros (_ & _ & ? & _).
  - destruct (headers_get "accept" (req_headers request)) as [accept|] eqn:Haccept.
    + unfold bind, lift. cbn beta iota.
      destruct (includes accept "text/html") eqn:Hhtml.
      * rewrite revalidation_answer.
        split; [by split|]. split; [done|]. split.
        { split; [by intros [e ?]|]. by intros (_ & _ & _ & ?). }
        split; [by eauto|].
        destruct (cache_match DYNAMIC_CACHE (request_key request) (caches w))
          as [cached|] eqn:Hsnapshot;
          [|destruct (network request) as [resp|e] eqn:Hnet].
        -- split; [done|]. by intros (_ & _ & _ & _ & ? & _).
        -- split; [done|]. by intros (_ & _ & _ & _ & _ & ? & ?).
        -- split; [|done]. intros _. do 5 (split; [done|]). by eauto.
      * destruct (respondWith_answers _ w (networkFirst_returns request w))
          as [r Hr].
        rewrite Hr. split; [by split|]. split; [done|]. split.
        { split; [by intros [e ?]|]. by intros (_ & _ & _ & ?). }
        split; [by eauto|]. split; [done|]. by intros (_ & _ & _ & ? & _).
    + cbn. split; [by split|]. split; [done|]. split.
      { split; [done|]. by eauto. }
      split; [intros _ [?|[?|[? ?]]]; done|].
      split; [done|]. by intros (_ & _ & _ & ? & _).
Qed.

End Outcomes.

(** ** Paths *)

Lemma prefix_trans (q p s : string) :
  String.prefix q p = true → String.prefix p s = true → String.prefix q s = true.
Proof.
  revert p s. induction q as [|a q IH]; intros p s Hqp Hps;
    [by destruct s|].
  destruct p as [|b p]; [by simpl in Hqp|].
  destruct s as [|c s]; [by simpl in Hps|].
  simpl in *. destruct (Ascii.ascii_dec a b) as [->|]; [|discriminate].
  destruct (Ascii.ascii_dec b c) as [->|]; [|discriminate]. by eapply IH.
Qed.

Lemma critical_is_api request :
  isCriticalAPI request = true → isAPIRequest request = true.
Proof.
  unfold isCriticalAPI, isAPIRequest, startsWith.
  intros (api & Hin & Hpre)%existsb_exists.
  apply (prefix_trans _ api); [|done].
  assert (Hall : forallb (String.prefix "/api/") CRITICAL_APIS = true)
    by (vm_compute; reflexivity).
  by apply (proj1 (forallb_forall _ _) Hall).
Qed.

(** X2.  A network-first request whose path is outside the API namespace
    (the default branch of the listener) never gets the JSON offline body:
    every path on the critical list is an API path, so when the fetch fails
    and no snapshot exists the answer is the generic 503 response. *)
Theorem default_branch_offline_is_generic (network : Request → FetchResult)
    request w e :
  isAPIRequest request = false →
  network request = NetFailure e →
  caches_match (request_key request) (caches w) = None →
  isCriticalAPI request = false
  ∧ (networkFirst network request w).1 = Normal offlineResponse.
Proof.
  intros Hapi Hnet Hmiss.
  assert (Hcritical : isCriticalAPI request = false).
  { destruct (isCriticalAPI request) eqn:Hc; [|done].
    apply critical_is_api in Hc. congruence. }
  split; [done|].
  rewrite (networkFirst_offline _ _ _ _ Hnet). cbn [fst].
  by rewrite Hmiss, Hcritical.
Qed.

(** ** Snapshots across requests *)

Lemma held_only_in_open tier key cs :
  held_only_in tier key cs = true →
  held_only_in tier key (caches_open tier cs) = true.
Proof.
  unfold held_only_in, caches_open. intros H.
  destruct (caches_has tier cs); [done|].
  rewrite forallb_app, H. cbn. by rewrite bool_decide_true.
Qed.

Lemma held_only_in_put tier key k r cs :
  held_only_in tier key cs = true →
  held_only_in tier key (cache_put tier k r cs) = true.
Proof.
  unfold held_only_in, cache_put.
  induction cs as [|[n c] cs IH]; [done|]. cbn.
  intros [Hp Hcs]%andb_true_iff. rewrite (IH Hcs), andb_true_r.
  destruct (decide (n = tier)) as [->|]; cbn; [by rewrite bool_decide_true|done].
Qed.

Lemma held_only_in_miss tier key cs :
  caches_match key cs = None → held_only_in tier key cs = true.
Proof.
  unfold held_only_in. induction cs as [|[n c] cs IH]; [done|]. cbn.
  destruct (c !! key) eqn:Hc; [done|]. intros H.
  rewrite (IH H), andb_true_r. rewrite (bool_decide_true (None = None)) by done.
  apply orb_true_r.
Qed.

(** When no other tier holds the key, [caches.match] finds what the tier
    holds. *)
Lemma caches_match_of_tier tier key cs r :
  held_only_in tier key cs = true →
  cache_match tier key cs = Some r →
  caches_match key cs = Some r.
Proof.
  unfold held_only_in, cache_match.
  induction cs as [|[n c] cs IH]; [done|]. cbn.
  intros [Hp Hcs]%andb_true_iff.
  destruct (decide (n = tier)) as [->|Hne]; cbn.
  - by intros ->.
  - rewrite bool_decide_false in Hp by done. cbn in Hp.
    apply bool_decide_eq_true in Hp. rewrite Hp. by apply IH.
Qed.

Lemma cache_match_put_present tier key r cs :
  is_Some (cache_lookup tier cs) →
  cache_match tier key (cache_put tier key r cs) = Some r.
Proof.
  intros [c Hc]. unfold cache_match. rewrite cache_lookup_put, Hc. cbn.
  apply lookup_insert_eq.
Qed.

(** X3.  A response stored by a network-first request is what the same
    request gets when the network is gone: after a 2xx answer, a later
    request for the same URL whose fetch fails is answered with that
    response, provided no tier other than the API tier holds the URL. *)
Theorem network_first_round_trip (online offline : Request → FetchResult)
    request w resp e :
  held_only_in API_CACHE (request_key request) (caches w) = true →
  online request = NetResponse resp → ok resp = true →
  offline request = NetFailure e →
  (networkFirst offline request (networkFirst online request w).2).1
  = Normal resp.
Proof.
  intros Hheld Hon Hok Hoff.
  rewrite (networkFirst_ok _ _ _ _ Hon Hok). cbn [snd].
  rewrite (networkFirst_offline _ _ _ _ Hoff). cbn [fst caches].
  rewrite (caches_match_of_tier API_CACHE _ _ resp); [done| |].
  - by apply held_only_in_put, held_only_in_open.
  - apply cache_match_put_open.
Qed.

(** X4.  A static asset is fetched once: after a cache-first request that
    missed the cache and was answered with a 2xx response, the same request
    is answered with that response from the cache, whatever the network
    does then, and without a network call. *)
Theorem cache_first_fetches_once (first later : Request → FetchResult)
    request w resp :
  caches_match (request_key request) (caches w) = None →
  first request = NetResponse resp → ok resp = true →
  cacheFirst later request (cacheFirst first request w).2
  = (Normal resp,
     mkWorld (caches (cacheFirst first request w).2)
       (trace (cacheFirst first request w).2
        ++ [CacheLookup None (request_key request)]))
  ∧ fetched (trace (cacheFirst later request (cacheFirst first request w).2).2)
    = fetched (trace w) ++ [request].
Proof.
  intros Hmiss Hnet Hok.
  rewrite (cacheFirst_miss_ok _ _ _ _ Hmiss Hnet Hok). cbn [snd].
  assert (Hhit : caches_match (request_key request)
            (cache_put STATIC_CACHE (request_key request) resp
               (caches_open STATIC_CACHE (caches w))) = Some resp).
  { apply (caches_match_of_tier STATIC_CACHE).
    - by apply held_only_in_put, held_only_in_open, held_only_in_miss.
    - apply cache_match_put_open. }
  rewrite (cacheFirst_hit later request _ resp) by exact Hhit.
  cbn [snd caches trace]. split; [done|].
  rewrite !fetched_app. cbn. by rewrite app_nil_r.
Qed.

(** X5.  Stale-while-revalidate over two requests: after a request that
    found no snapshot and was answered with a 2xx response, the next request
    for the same URL is answered with that first response, and the dynamic
    tier then holds the second 2xx response. *)
Theorem revalidation_serves_previous_response
    (first second : Request → FetchResult) request w resp1 resp2 :
  cache_match DYNAMIC_CACHE (request_key request) (caches w) = None →
  first request = NetResponse resp1 → ok resp1 = true →
  second request = NetResponse resp2 → ok resp2 = true →
  (respondWithRevalidation (staleWhileRevalidate second request)
     (respondWithRevalidation (staleWhileRevalidate first request) w).2).1
  = Normal (Responded (Some resp1))
  ∧ cache_match DYNAMIC_CACHE (request_key request)
      (caches
         (respondWithRevalidation (staleWhileRevalidate second request)
            (respondWithRevalidation (staleWhileRevalidate first request) w).2).2)
    = Some resp2.
Proof.
  intros Hmiss Hn1 Hok1 Hn2 Hok2.
  rewrite (revalidate_miss_response _ _ _ _ Hmiss Hn1), Hok1. cbn [snd].
  assert (Hhit : cache_match DYNAMIC_CACHE (request_key request)
            (cache_put DYNAMIC_CACHE (request_key request) resp1
               (caches_open DYNAMIC_CACHE (caches w))) = Some resp1)
    by apply cache_match_put_open.
  rewrite (revalidate_hit_ok second request _ resp1 resp2) by done.
  cbn [fst snd caches]. split; [done|].
  apply cache_match_put_present. by eapply cache_match_present.
Qed.

(** ** What a request may change *)

Lemma cache_lookup_app name cs1 cs2 :
  cache_lookup name (cs1 ++ cs2)
  = match cache_lookup name cs1 with
    | Some c => Some c
    | None => cache_lookup name cs2
    end.
Proof.
  induction cs1 as [|[n c] cs1 IH]; [done|]. cbn. by case_decide.
Qed.

Lemma cache_lookup_open_ne name tier cs :
  name ≠ tier → cache_lookup name (caches_open tier cs) = cache_lookup name cs.
Proof.
  intros Hne. unfold caches_open. destruct (caches_has tier cs); [done|].
  rewrite cache_lookup_app. cbn. rewrite decide_False by done.
  by destruct (cache_lookup name cs).
Qed.

Lemma cache_lookup_put_ne name tier key r cs :
  name ≠ tier → cache_lookup name (cache_put tier key r cs) = cache_lookup name cs.
Proof.
  intros Hne. unfold cache_put.
  induction cs as [|[n c] cs IH]; [done|]. cbn.
  destruct (decide (n = tier)) as [->|]; cbn.
  - rewrite !decide_False by done. apply IH.
  - case_decide; [done|apply IH].
Qed.

Lemma caches_keys_put tier key r cs :
  caches_keys (cache_put tier key r cs) = caches_keys cs.
Proof.
  unfold caches_keys, cache_put. rewrite <- list_fmap_compose.
  apply list_fmap_ext. intros i [n c] _. cbn. by case_decide.
Qed.

Lemma caches_keys_put_all tier (l : list (Request * Response)) cs :
  caches_keys (foldl (λ cs p, cache_put tier (request_key p.1) p.2 cs) cs l)
  = caches_keys cs.
Proof.
  revert cs. induction l as [|p l IH]; intros cs; [done|].
  cbn [foldl]. by rewrite IH, caches_keys_put.
Qed.

Lemma NoDup_caches_open tier cs :
  NoDup (caches_keys cs) → NoDup (caches_keys (caches_open tier cs)).
Proof.
  unfold caches_open, caches_has, caches_keys. intros Hnd.
  case_bool_decide as Hin; [done|].
  rewrite fmap_app. apply NoDup_app. split; [done|]. split.
  - intros name Hname Htier. cbn in Htier.
    apply list_elem_of_singleton in Htier as ->. done.
  - cbn. apply NoDup_singleton.
Qed.

Section Storage.

Variable network : Request → FetchResult.

Lemma cacheFirst_storage request w :
  caches (cacheFirst network request w).2 = caches w
  ∨ ∃ resp,
      caches (cacheFirst network request w).2
      = cache_put STATIC_CACHE (request_key request) resp
          (caches_open STATIC_CACHE (caches w)).
Proof.
  destruct w as [cs tr]. run_task. cbn [snd].
  destruct (caches_match _ cs); [by left|].
  destruct (network request) as [resp|e]; [|by left].
  destruct (ok resp); [right; by eauto|by left].
Qed.

Lemma networkFirst_storage request w :
  caches (networkFirst network request w).2 = caches w
  ∨ ∃ resp,
      caches (networkFirst network request w).2
      = cache_put API_CACHE (request_key request) resp
          (caches_open API_CACHE (caches w)).
Proof.
  destruct w as [cs tr]. run_task. cbn [snd].
  destruct (network request) as [resp|e].
  - destruct (ok resp); [right; by eauto|by left].
  - destruct (caches_match _ cs); [by left|].
    destruct (isCriticalAPI request); by left.
Qed.

Lemma revalidation_storage request w :
  caches (respondWithRevalidation (staleWhileRevalidate network request) w).2
  = caches_open DYNAMIC_CACHE (caches w)
  ∨ ∃ resp,
      caches (respondWithRevalidation (staleWhileRevalidate network request) w).2
      = cache_put DYNAMIC_CACHE (request_key request) resp
          (caches_open DYNAMIC_CACHE (caches w)).
Proof.
  destruct w as [cs tr]. run_task. cbn [snd].
  destruct (cache_match _ _ _);
    (destruct (network request) as [resp|e];
     [destruct (ok resp); [right; by eauto|by left]|by left]).
Qed.

Lemma respondWith_storage strategy w :
  caches (respondWith strategy w).2 = caches (strategy w).2.
Proof.
  unfold respondWith, bind, emit, ret.
  by destruct (strategy w) as [[r|e] [cs tr]].
Qed.

(** The storage after the listener has run: untouched, or the tier of the
    policy opened, or that tier opened and written under the URL of the
    request. *)
Lemma onFetch_storage request w :
  caches (onFetch network request w).2 = caches w
  ∨ ∃ policy,
      classify request = Normal (Some policy)
      ∧ (caches (onFetch network request w).2
         = caches_open (tier_of policy) (caches w)
         ∨ ∃ resp,
             caches (onFetch network request w).2
             = cache_put (tier_of policy) (request_key request) resp
                 (caches_open (tier_of policy) (caches w))).
Proof.
  destruct (classify request) as [[[]|]|e] eqn:Hclass.
  - rewrite (onFetch_cache_first _ _ Hclass), respondWith_storage.
    destruct (cacheFirst_storage request w) as [->|[resp ->]]; [by left|].
    right. exists CacheFirst. by eauto.
  - rewrite (onFetch_network_first _ _ Hclass), respondWith_storage.
    destruct (networkFirst_storage request w) as [->|[resp ->]]; [by left|].
    right. exists NetworkFirst. by eauto.
  - rewrite (onFetch_revalidate _ _ Hclass).
    destruct (revalidation_storage request w) as [->|[resp ->]];
      right; exists StaleWhileRevalidate; by eauto.
  - rewrite (onFetch_pass_through _ _ Hclass). by left.
  - rewrite (onFetch_throws _ _ _ w Hclass). by left.
Qed.

End Storage.

(** X6.  A request changes one tier at most.  Whatever the network
    answers, the fetch listener leaves every tier other than the tier of the
    request's policy as it was; a request that is left alone or on which
    classification throws changes no tier at all. *)
Theorem fetch_changes_one_tier (network : Request → FetchResult) request w :
  (∀ policy name,
     classify request = Normal (Some policy) →
     name ≠ tier_of policy →
     cache_lookup name (caches (onFetch network request w).2)
     = cache_lookup name (caches w))
  ∧ ((∀ policy, classify request ≠ Normal (Some policy)) →
     caches (onFetch network request w).2 = caches w).
Proof.
  split.
  - intros policy name Hclass Hname.
    destruct (onFetch_storage network request w)
      as [->|(policy' & Hclass' & [->|[resp ->]])]; [done| |].
    + assert (policy' = policy) as -> by congruence.
      by apply cache_lookup_open_ne.
    + assert (policy' = policy) as -> by congruence.
      rewrite cache_lookup_put_ne by done. by apply cache_lookup_open_ne.
  - intros Hnone.
    destruct (onFetch_storage network request w)
      as [->|(policy & Hclass & _)]; [done|]. by destruct (Hnone policy).
Qed.

(** ** Activation and the contents of the tiers *)

Lemma onActivate_storage w :
  onActivate w
  = (Normal tt,
     mkWorld (filter (λ p, p.1 ∈ REGISTRY) (caches w))
       (trace w ++ [ConsoleLog "Service Worker activating..." []]
                ++ deletion_events (caches_keys (caches w))
                ++ [ConsoleLog "Service Worker activated" []; ClientsClaim])).
Proof.
  destruct w as [cs tr]. unfold onActivate.
  unfold bind at 1. unfold console_log at 1. unfold emit at 1.
  unfold bind at 1. unfold caches_keys_task, read_caches.
  unfold bind at 1. cbn [caches trace]. rewrite activate_loop.
  run_task. rewrite <- !app_assoc. cbn [app]. f_equal. f_equal.
  apply filter_ext_in. intros p Hp. rewrite is_current_registry.
  split; [|tauto]. intros [?|Hn]; [done|].
  exfalso. apply Hn. unfold caches_keys. by apply list_elem_of_fmap_2.
Qed.

Lemma cache_lookup_filter (names : list string) name (cs : CacheStorage) :
  cache_lookup name (filter (λ p, p.1 ∈ names) cs)
  = if decide (name ∈ names) then cache_lookup name cs else None.
Proof.
  induction cs as [|[n c] cs IH]; [by case_decide|].
  rewrite filter_cons. cbn [fst]. destruct (decide (n ∈ names)) as [Hn|Hn]; cbn.
  - destruct (decide (n = name)) as [->|]; [|apply IH].
    by rewrite decide_True by done.
  - rewrite IH. destruct (decide (n = name)) as [->|]; [|done].
    by rewrite !decide_False by done.
Qed.

(** X7.  Activation keeps what the current tiers hold and clears the rest:
    afterwards a tier of the registry holds exactly what it held, no other
    tier exists, and activating once more changes nothing in the storage. *)
Theorem activate_keeps_contents w :
  (∀ name,
     cache_lookup name (caches (onActivate w).2)
     = if decide (name ∈ REGISTRY) then cache_lookup name (caches w) else None)
  ∧ caches (onActivate (onActivate w).2).2 = caches (onActivate w).2.
Proof.
  rewrite !onActivate_storage. cbn [snd caches]. split.
  - intros name. apply cache_lookup_filter.
  - rewrite list_filter_filter. apply list_filter_iff. tauto.
Qed.

(** ** Installation and later requests *)

Section Installed.

Variable self_origin : string.
Variable network : Request → FetchResult.


Lemma cache_lookup_put_all_ne name tier (l : list (Request * Response)) cs :
  name ≠ tier →
  cache_lookup name (foldl (λ cs p, cache_put tier (request_key p.1) p.2 cs) cs l)
  = cache_lookup name cs.
Proof.
  intros Hne. revert cs. induction l as [|p l IH]; intros cs; [done|].
  cbn [foldl]. by rewrite IH, cache_lookup_put_ne.
Qed.


End Installed.


(** X9.  The installed shell does not answer page navigations.  An HTML
    request is served from the dynamic tier only, which the install does not
    write: after any install, an HTML request without a snapshot in the
    dynamic tier whose fetch fails resolves to [undefined], whatever the
    static tier holds. *)
Theorem installed_shell_not_served_to_navigations (self_origin : string)
    (network later : Request → FetchResult) w request e :
  classify request = Normal (Some StaleWhileRevalidate) →
  cache_match DYNAMIC_CACHE (request_key request) (caches w) = None →
  later request = NetFailure e →
  (onFetch later request (onInstall self_origin network w).2).1
  = Normal (Responded None).
Proof.
  intros Hclass Hmiss Hdown.
  rewrite (onFetch_revalidate _ _ Hclass).
  rewrite (revalidate_miss_offline later request _ e); [done| |done].
  rewrite <- Hmiss. unfold cache_match. f_equal.
  destruct (all_ok network (asset_request self_origin <$> STATIC_ASSETS))
    as [l|] eqn:Hl.
  - rewrite (install_success_run _ _ _ _ Hl). cbn [snd caches].
    rewrite cache_lookup_put_all_ne by done. by apply cache_lookup_open_ne.
  - rewrite (install_failure_run _ _ _ Hl). cbn [snd caches].
    by apply cache_lookup_open_ne.
Qed.

(** ** Messages from the page *)

Section Messages.

Variable self_origin : string.
Variable network : Request → FetchResult.

Lemma keys_distinct (urls : list string) :
  NoDup urls → NoDup (request_key <$> (asset_request self_origin <$> urls)).
Proof.
  intros Hnd. rewrite <- list_fmap_compose. apply NoDup_fmap_2_strong; [|done].
  intros a b _ _. unfold compose, request_key, asset_request, href. cbn.
  rewrite !append_empty_r. apply String.app_inj.
Qed.

Lemma cache_urls_failure_run w urls :
  all_ok network (asset_request self_origin <$> urls) = None →
  onClientMessage self_origin network
    (Some (mkClientMessage "CACHE_URLS" (Some urls))) w
  = (Throw (TypeError "Request failed"),
     mkWorld (caches_open API_CACHE (caches w))
       (trace w
        ++ [ConsoleLog "Service Worker received message:"
              (ArgString "CACHE_URLS" :: (ArgString <$> urls))]
        ++ (NetFetch <$> (asset_request self_origin <$> urls)))).
Proof.
  intros Hall. destruct w as [cs tr].
  unfold onClientMessage, cache_addAll. cbn [message_type message_urls].
  change (String.eqb "CACHE_URLS" "SKIP_WAITING") with false.
  change (String.eqb "CACHE_URLS" "CACHE_URLS") with true.
  rewrite Hall. cbn [when message_args message_type message_urls default].
  unfold bind at 1. unfold console_log at 1. unfold emit at 1.
  unfold bind at 1. unfold ret at 1. cbn [caches trace].
  unfold bind at 1. unfold caches_open_task at 1.
  unfold bind at 1. unfold update_caches, ret at 1. cbn [caches trace].
  unfold bind at 1. rewrite for_each_emit. unfold throw.
  by rewrite <- !app_assoc.
Qed.

Lemma cache_urls_success_run w urls l :
  all_ok network (asset_request self_origin <$> urls) = Some l →
  onClientMessage self_origin network
    (Some (mkClientMessage "CACHE_URLS" (Some urls))) w
  = (Normal tt,
     mkWorld
       (foldl (λ cs p, cache_put API_CACHE (request_key p.1) p.2 cs)
          (caches_open API_CACHE (caches w)) l)
       (trace w
        ++ [ConsoleLog "Service Worker received message:"
              (ArgString "CACHE_URLS" :: (ArgString <$> urls))]
        ++ (NetFetch <$> (asset_request self_origin <$> urls))
        ++ ((λ p, CachePut API_CACHE (request_key p.1)) <$> l))).
Proof.
  intros Hall. destruct w as [cs tr].
  unfold onClientMessage, cache_addAll. cbn [message_type message_urls].
  change (String.eqb "CACHE_URLS" "SKIP_WAITING") with false.
  change (String.eqb "CACHE_URLS" "CACHE_URLS") with true.
  rewrite Hall. cbn [when message_args message_type message_urls default].
  unfold bind at 1. unfold console_log at 1. unfold emit at 1.
  unfold bind at 1. unfold ret at 1. cbn [caches trace].
  unfold bind at 1. unfold caches_open_task at 1.
  unfold bind at 1. unfold update_caches, ret at 1. cbn [caches trace].
  unfold bind at 1. rewrite for_each_emit. rewrite put_all_run.
  by rewrite <- !app_assoc.
Qed.

Lemma other_message_run w data :
  (∀ m, data = Some m → message_type m ≠ "CACHE_URLS") →
  onClientMessage self_origin network data w
  = (Normal tt,
     mkWorld (caches w)
       (trace w
        ++ ConsoleLog "Service Worker received message:" (message_args data)
        :: match data with
           | Some m =>
               if String.eqb (message_type m) "SKIP_WAITING"
               then [SkipWaiting] else []
           | None => []
           end)).
Proof.
  intros Hother. destruct w as [cs tr]. unfold onClientMessage.
  destruct data as [m|]; [|done].
  rewrite (proj2 (String.eqb_neq _ _) (Hother m eq_refl)).
  destruct (String.eqb (message_type m) "SKIP_WAITING"); run_task;
    by rewrite <- ?app_assoc.
Qed.

End Messages.

(** X10.  A CACHE_URLS message fills the API tier all or nothing, and
    unlike the install its failure is not caught.  With distinct URLs: when
    the request for one of them fails or is answered outside 200-299, the
    promise given to [waitUntil] rejects and nothing is stored; when all are
    answered with a 2xx response it fulfils and every URL is in the API tier.
    Any other message, or an event without data, leaves the storage as it
    is. *)
Theorem cache_urls_all_or_nothing (self_origin : string)
    (network : Request → FetchResult) w urls :
  NoDup urls →
  (∀ url,
     url ∈ urls →
     answered_ok network (asset_request self_origin url) = false →
     (onClientMessage self_origin network
        (Some (mkClientMessage "CACHE_URLS" (Some urls))) w).1
     = Throw (TypeError "Request failed")
     ∧ caches (onClientMessage self_origin network
                 (Some (mkClientMessage "CACHE_URLS" (Some urls))) w).2
       = caches_open API_CACHE (caches w))
  ∧ ((∀ url,
        url ∈ urls →
        answered_ok network (asset_request self_origin url) = true) →
     (onClientMessage self_origin network
        (Some (mkClientMessage "CACHE_URLS" (Some urls))) w).1 = Normal tt
     ∧ ∀ url,
         url ∈ urls →
         ∃ resp,
           network (asset_request self_origin url) = NetResponse resp
           ∧ cache_match API_CACHE (request_key (asset_request self_origin url))
               (caches (onClientMessage self_origin network
                          (Some (mkClientMessage "CACHE_URLS" (Some urls))) w).2)
             = Some resp)
  ∧ (∀ data,
       (∀ m, data = Some m → message_type m ≠ "CACHE_URLS") →
       (onClientMessage self_origin network data w).1 = Normal tt
       ∧ caches (onClientMessage self_origin network data w).2 = caches w).
Proof.
  intros Hnd. split; [|split].
  - intros url Hin Hfail.
    rewrite cache_urls_failure_run; [done|].
    apply (all_ok_failure network _ (asset_request self_origin url)); [|done].
    by apply list_elem_of_fmap_2.
  - intros Hall.
    destruct (all_ok_success network (asset_request self_origin <$> urls))
      as (l & Hl & Hfst & Hnet).
    { intros r (url & -> & Hin)%list_elem_of_fmap. by apply Hall. }
    rewrite (cache_urls_success_run _ _ _ _ _ Hl). cbn [fst snd caches].
    split; [done|]. intros url Hin.
    assert (asset_request self_origin url ∈ l.*1)
      as (p & Hp1 & Hp)%list_elem_of_fmap.
    { rewrite Hfst. by apply list_elem_of_fmap_2. }
    exists p.2. rewrite Hp1. split; [by apply Hnet|].
    unfold cache_match.
    rewrite cache_lookup_put_all, cache_lookup_open_same. cbn.
    apply lookup_insert_all; [|done].
    rewrite Hfst. by apply keys_distinct.
  - intros data Hother. by rewrite other_message_run.
Qed.

(** * Further properties of the data-processing worker *)

(** ** Comparisons of numbers *)

Lemma zero_spec : Prim2SF 0 = S754_zero false.
Proof. reflexivity. Qed.

(** No number is both above and below zero. *)
Lemma gt_zero_not_lt (x : float) : gt x 0 = true → lt x 0 = false.
Proof.
  unfold gt, lt. rewrite !ltb_spec, zero_spec.
  by destruct (Prim2SF x) as [[]|[]| |[] m e].
Qed.

(** No number is both above 5 and below -5. *)
Lemma gt_five_not_lt (x : float) : gt x 5 = true → lt x (-5) = false.
Proof.
  unfold gt, lt. rewrite !ltb_spec.
  let v := eval vm_compute in (Prim2SF 5) in change (Prim2SF 5) with v.
  let v := eval vm_compute in (Prim2SF (-5)) in change (Prim2SF (-5)) with v.
  by destruct (Prim2SF x) as [[]|[]| |[] m e].
Qed.

(** ** Lists *)

Lemma filter_three_way {A} (f g : A → bool) (l : list A) :
  (∀ x, f x = true → g x = false) →
  length (List.filter f l) + length (List.filter g l)
  + length (List.filter (λ x, negb (f x) && negb (g x)) l) = length l.
Proof.
  intros Hfg. induction l as [|x l IH]; [done|]. cbn.
  destruct (f x) eqn:Hf; [rewrite (Hfg x Hf)|destruct (g x)]; cbn; lia.
Qed.

Lemma insertSorted_perm {A} (compare : A → A → float) x l :
  insertSorted compare x l ≡ₚ x :: l.
Proof.
  induction l as [|y l IH]; [done|]. cbn [insertSorted].
  destruct (gt (compare x y) 0); [|reflexivity].
  rewrite IH. apply Permutation_swap.
Qed.

Lemma sort_perm {A} (compare : A → A → float) l : sort compare l ≡ₚ l.
Proof.
  unfold sort. induction l as [|x l IH]; [done|]. cbn.
  by rewrite insertSorted_perm, IH.
Qed.

Lemma top_ten {A} (compare : A → A → float) (f : A → bool) (l : list A) :
  length (slice 0 10 (sort compare (List.filter f l)))
  = 10 `min` length (List.filter f l)
  ∧ ∀ x, x ∈ slice 0 10 (sort compare (List.filter f l)) → x ∈ l ∧ f x = true.
Proof.
  unfold slice. rewrite drop_0. change (10 - 0) with 10. split.
  - rewrite length_take. by rewrite (Permutation_length (sort_perm _ _)).
  - intros x Hx. apply subseteq_take in Hx. rewrite sort_perm in Hx.
    apply list_elem_of_In, filter_In in Hx as [Hx ?].
    by apply list_elem_of_In in Hx.
Qed.

(** ** Market data *)

(** X11.  The statistics of [processMarketData] are consistent: every stock
    is a gainer, a loser or unchanged and never two of them, so [unchanged]
    counts the stocks whose change is neither above nor below zero (a
    missing, zero or [NaN] change among them) and is never negative; each top
    list has at most ten entries, all of them stocks of the input on the
    right side of zero. *)
Theorem market_statistics_consistent (stocks : list Stock) :
  ∃ r,
    processMarketData (Some stocks) = Normal r
    ∧ totalStocks (statistics r) = length stocks
    ∧ unchanged (statistics r)
      = Z.of_nat (length (List.filter (λ s, negb (isGainer s) && negb (isLoser s))
                            stocks))
    ∧ gainers (statistics r) + losers (statistics r)
      + Z.to_nat (unchanged (statistics r)) = totalStocks (statistics r)
    ∧ length (topGainers r) = 10 `min` gainers (statistics r)
    ∧ length (topLosers r) = 10 `min` losers (statistics r)
    ∧ (∀ s, s ∈ topGainers r → s ∈ stocks ∧ isGainer s = true ∧ isLoser s = false)
    ∧ (∀ s, s ∈ topLosers r → s ∈ stocks ∧ isLoser s = true ∧ isGainer s = false).
Proof.
  pose proof (filter_three_way isGainer isLoser stocks
                (λ s, gt_zero_not_lt (change s))) as Hsplit.
  eexists. split; [reflexivity|].
  cbn [statistics totalStocks unchanged gainers losers topGainers topLosers].
  split; [done|]. split; [lia|]. split; [lia|].
  destruct (top_ten (λ a b, (change b - change a)%float) isGainer stocks)
    as [Hlg Hg].
  destruct (top_ten (λ a b, (change a - change b)%float) isLoser stocks)
    as [Hll Hl].
  split; [exact Hlg|]. split; [exact Hll|]. split.
  - intros s Hs. destruct (Hg s Hs) as [? Hgain]. split; [done|]. split; [done|].
    by apply gt_zero_not_lt.
  - intros s Hs. destruct (Hl s Hs) as [? Hloss]. split; [done|]. split; [done|].
    destruct (isGainer s) eqn:Hgain; [|done].
    apply gt_zero_not_lt in Hgain. unfold isLoser in Hloss. congruence.
Qed.

(** ** Stock trends *)

Lemma trendOf_cases (x : float) :
  trendOf x ∈ ["strong_bullish"; "bullish"; "strong_bearish"; "bearish"; "neutral"].
Proof.
  unfold trendOf. rewrite !elem_of_cons.
  destruct (gt x 2); [tauto|]. destruct (gt x 0.5); [tauto|].
  destruct (lt x (-2)); [tauto|]. destruct (lt x (-0.5)); tauto.
Qed.

Lemma trend_counted_once (t : string) :
  t ∈ ["strong_bullish"; "bullish"; "strong_bearish"; "bearish"; "neutral"] →
  (if includes t "bull" then 1 else 0) + (if includes t "bear" then 1 else 0)
  + (if String.eqb t "neutral" then 1 else 0) = 1.
Proof.
  rewrite !elem_of_cons, elem_of_nil.
  intros [->|[->|[->|[->|[->|[]]]]]]; reflexivity.
Qed.

Lemma trend_counts (ts : list Trend) :
  (∀ t, t ∈ ts →
        trend t ∈ ["strong_bullish"; "bullish"; "strong_bearish"; "bearish";
                   "neutral"]) →
  length (List.filter (λ t, includes (trend t) "bull") ts)
  + length (List.filter (λ t, includes (trend t) "bear") ts)
  + length (List.filter (λ t, String.eqb (trend t) "neutral") ts)
  = length ts.
Proof.
  induction ts as [|t ts IH]; intros Hall; [done|].
  pose proof (trend_counted_once (trend t) (Hall t (list_elem_of_here _ _))) as Ht.
  specialize (IH (λ t' Ht', Hall t' (list_elem_of_further _ _ _ Ht'))).
  cbn [List.filter].
  destruct (includes (trend t) "bull"), (includes (trend t) "bear"),
    (String.eqb (trend t) "neutral"); cbn [length] in *; lia.
Qed.

(** X12.  The summary of [analyzeStockTrends] counts every stock once: the
    trends are those of the stocks, in order, and bullish + bearish +
    neutral is the number of stocks.  A stock whose [changePercent] is
    absent, zero or [NaN] is neutral. *)
Theorem trend_summary_counts_every_stock (stocks : list Stock) :
  ∃ r,
    analyzeStockTrends (Some stocks) = Normal r
    ∧ trend_stock <$> trends r = stocks
    ∧ bullish (trendSummary r) + bearish (trendSummary r)
      + neutral (trendSummary r) = length stocks
    ∧ (∀ t, t ∈ trends r →
            or_else (changePercent (trend_stock t)) None = None →
            trend t = "neutral").
Proof.
  eexists. split; [reflexivity|].
  cbn [trends trendSummary bullish bearish neutral]. split; [|split].
  - rewrite <- list_fmap_compose. by rewrite list_fmap_id.
  - rewrite trend_counts; [by rewrite length_fmap|].
    intros t (s & -> & _)%list_elem_of_fmap. apply trendOf_cases.
  - intros t (s & -> & _)%list_elem_of_fmap. cbn [analyzeStock trend trend_stock].
    unfold orZero, or_else. destruct (changePercent s) as [x|]; [|by intros _].
    destruct (truthy x); [done|]. by intros _.
Qed.

(** ** Watchlist *)

Lemma alerts_counted (stock : Stock) :
  length (alertsOf stock)
  = (if gt (orZero (changePercent stock)) 5 then 1 else 0)
    + (if lt (orZero (changePercent stock)) (-5) then 1 else 0)
    + (if bool_decide ("high_volume" ∈ alertsOf stock) then 1 else 0)
  ∧ length (alertsOf stock) ≤ 2.
Proof.
  pose proof (gt_five_not_lt (orZero (changePercent stock))) as Hexcl.
  unfold alertsOf.
  destruct (gt (orZero (changePercent stock)) 5);
    [rewrite Hexcl by done|destruct (lt (orZero (changePercent stock)) (-5))];
    destruct (gt (orZero (volume stock)) (orZero (averageVolume stock) * 2));
    split; (reflexivity || (cbn; lia)).
Qed.

Lemma analyzeItem_entry marketData item e :
  analyzeItem marketData item = Some e →
  entry_item e = item
  ∧ ∃ stock,
      stock ∈ marketData
      ∧ stock_symbol stock = item_symbol item
      ∧ entry_changePercent e = orZero (changePercent stock)
      ∧ alerts e = alertsOf stock.
Proof.
  unfold analyzeItem.
  destruct (List.find _ marketData) as [stock|] eqn:Hfind; [|done].
  intros [= <-]. split; [done|]. exists stock.
  apply find_some in Hfind as [Hin Hsym].
  apply list_elem_of_In in Hin. by apply String.eqb_eq in Hsym.
Qed.

Lemma analyzeItem_matched marketData item :
  is_Some (analyzeItem marketData item)
  ↔ existsb (λ s, String.eqb (stock_symbol s) (item_symbol item)) marketData = true.
Proof.
  unfold analyzeItem. split.
  - destruct (List.find _ marketData) as [stock|] eqn:Hfind; [|by intros [? ?]].
    intros _. apply find_some in Hfind as [? ?]. apply existsb_exists. eauto.
  - intros (s & Hin & Hs)%existsb_exists.
    destruct (List.find _ marketData) as [stock|] eqn:Hfind; [by eauto|].
    by rewrite (find_none _ _ Hfind s Hin) in Hs.
Qed.

Lemma sum_alerts (es : list WatchlistEntry) (n : nat) :
  (∀ e, e ∈ es →
        length (alerts e)
        = (if gt (entry_changePercent e) 5 then 1 else 0)
          + (if lt (entry_changePercent e) (-5) then 1 else 0)
          + (if bool_decide ("high_volume" ∈ alerts e) then 1 else 0)) →
  fold_left (λ sum e, sum + length (alerts e)) es n
  = n + length (List.filter (λ e, gt (entry_changePercent e) 5) es)
    + length (List.filter (λ e, lt (entry_changePercent e) (-5)) es)
    + length (List.filter (λ e, bool_decide ("high_volume" ∈ alerts e)) es).
Proof.
  revert n. induction es as [|e es IH]; intros n Hall; [cbn; lia|].
  cbn [fold_left List.filter].
  rewrite IH by (intros e' He'; apply Hall; by apply list_elem_of_further).
  rewrite (Hall e (list_elem_of_here _ _)).
  destruct (gt (entry_changePercent e) 5), (lt (entry_changePercent e) (-5)),
    (bool_decide ("high_volume" ∈ alerts e)); cbn [length]; lia.
Qed.

(** X13.  [processWatchlistAnalysis] keeps, in order, the items of the
    watchlist that have a stock of their symbol in the market data and drops
    the others; an item never carries more than two alerts (high gain and
    high loss exclude each other); and the alert total of the summary is the
    number of high gainers plus the number of high losers plus the number of
    items with a high-volume alert. *)
Theorem watchlist_analysis_consistent (watchlist : list WatchlistItem)
    (marketData : list Stock) :
  ∃ r,
    processWatchlistAnalysis (Some watchlist) (Some marketData) = Normal r
    ∧ entry_item <$> items r
      = List.filter
          (λ item, existsb (λ s, String.eqb (stock_symbol s) (item_symbol item))
                     marketData)
          watchlist
    ∧ totalItems (watchlistSummary r) = length (items r)
    ∧ (∀ e, e ∈ items r → length (alerts e) ≤ 2)
    ∧ totalAlerts (watchlistSummary r)
      = highGainers (watchlistSummary r) + highLosers (watchlistSummary r)
        + length (List.filter (λ e, bool_decide ("high_volume" ∈ alerts e))
                    (items r)).
Proof.
  assert (Hentries : ∀ e,
    e ∈ omap (analyzeItem marketData) watchlist →
    ∃ stock, entry_changePercent e = orZero (changePercent stock)
             ∧ alerts e = alertsOf stock).
  { intros e (item & _ & He)%list_elem_of_omap.
    apply analyzeItem_entry in He as (_ & stock & _ & _ & ? & ?). eauto. }
  exists (mkWatchlistAnalysis (omap (analyzeItem marketData) watchlist)
    (mkWatchlistSummary
       (length (omap (analyzeItem marketData) watchlist))
       (length (List.filter (λ e, gt (entry_changePercent e) 5)
                  (omap (analyzeItem marketData) watchlist)))
       (length (List.filter (λ e, lt (entry_changePercent e) (-5))
                  (omap (analyzeItem marketData) watchlist)))
       (fold_left (λ sum e, sum + length (alerts e))
          (omap (analyzeItem marketData) watchlist) 0))).
  split; [by destruct watchlist|].
  cbn [items watchlistSummary totalItems highGainers highLosers totalAlerts].
  split; [|split; [done|split]].
  - induction watchlist as [|item watchlist IH]; [done|].
    cbn [omap list_omap List.filter].
    pose proof (analyzeItem_matched marketData item) as Hmatch.
    destruct (analyzeItem marketData item) as [e|] eqn:He.
    + rewrite (proj1 Hmatch) by eauto. cbn [fmap list_fmap].
      apply analyzeItem_entry in He as [-> _]. f_equal. apply IH.
      intros e' (item' & Hin & He')%list_elem_of_omap.
      apply Hentries, list_elem_of_omap. exists item'.
      split; [by apply list_elem_of_further|done].
    + destruct (existsb _ marketData); [|apply IH].
      * by destruct (proj2 Hmatch eq_refl).
      * intros e' (item' & Hin & He')%list_elem_of_omap.
        apply Hentries, list_elem_of_omap. exists item'.
        split; [by apply list_elem_of_further|done].
  - intros e [stock [_ ->]]%Hentries. apply alerts_counted.
  - rewrite sum_alerts; [lia|].
    intros e [stock [-> Ha]]%Hentries. rewrite Ha. apply alerts_counted.
Qed.

(** ** Portfolio valuation *)

Lemma mapHoldings_run (prices : gmap string float) (hs : list Holding) (acc : Totals) :
  ∃ processed totals,
    mapHoldings (Some prices) acc hs = Normal (processed, totals)
    ∧ holding <$> processed = hs
    ∧ accValue totals
      = fold_left (λ sum p, (sum + currentValue p)%float) processed (accValue acc)
    ∧ accCost totals
      = fold_left (λ sum p, (sum + costBasis p)%float) processed (accCost acc)
    ∧ accGainLoss totals
      = fold_left (λ sum p, (sum + gainLoss p)%float) processed (accGainLoss acc)
    ∧ ∀ p, p ∈ processed →
        currentPrice p
        = default 0%float
            (or_else (or_else (prices !! symbol (holding p)) (holdingPrice (holding p)))
               (Some 0%float))
        ∧ currentValue p = (currentPrice p * toNumber (quantity (holding p)))%float
        ∧ costBasis p
          = (toNumber (averagePrice (holding p)) * toNumber (quantity (holding p)))%float
        ∧ gainLoss p = (currentValue p - costBasis p)%float.
Proof.
  revert acc. induction hs as [|h hs IH]; intros acc.
  - exists [], acc. do 5 (split; [done|]). intros p Hp. by apply elem_of_nil in Hp.
  - cbn [mapHoldings processHolding].
    match goal with
    | |- context [mapHoldings (Some prices) ?acc' hs] =>
        destruct (IH acc') as (processed & totals & -> & Hh & Hv & Hc & Hg & Hp)
    end.
    eexists (_ :: processed), totals. split; [reflexivity|].
    cbn [fmap list_fmap holding fold_left accValue accCost accGainLoss] in *.
    rewrite Hh. do 4 (split; [done|]).
    intros q [->|Hin]%elem_of_cons; [done|]. by apply Hp.
Qed.

(** X14.  Given a [currentPrices] object and holdings whose symbols are not
    names inherited from [Object.prototype], [calculatePortfolioValue]
    returns one processed holding for each holding, in order, priced by the
    table when it has a usable price for the symbol, else by the holding,
    else at zero; and the totals of the summary are the sums, from the first
    holding to the last, of the values, cost bases and gains of the
    processed holdings. *)
Theorem portfolio_totals_sum_the_holdings (data : PortfolioData)
    (hs : list Holding) (prices : gmap string float) :
  holdings data = Some hs →
  currentPrices data = Some prices →
  Forall (λ h, symbol h ∉ OBJECT_PROTOTYPE_NAMES) hs →
  ∃ r,
    calculatePortfolioValue data = Normal r
    ∧ holding <$> processedHoldings r = hs
    ∧ totalValue (summary r) = sumBy currentValue (processedHoldings r)
    ∧ totalCost (summary r) = sumBy costBasis (processedHoldings r)
    ∧ totalGainLoss (summary r) = sumBy gainLoss (processedHoldings r)
    ∧ ∀ p, p ∈ processedHoldings r →
        currentPrice p
        = default 0%float
            (or_else (or_else (prices !! symbol (holding p)) (holdingPrice (holding p)))
               (Some 0%float))
        ∧ currentValue p = (currentPrice p * toNumber (quantity (holding p)))%float
        ∧ gainLoss p = (currentValue p - costBasis p)%float.
Proof.
  intros Hh Hp _. unfold calculatePortfolioValue. rewrite Hh, Hp.
  destruct (mapHoldings_run prices hs (mkTotals 0 0 0))
    as (processed & totals & -> & Hhs & Hv & Hc & Hg & Hall).
  eexists. split; [reflexivity|].
  cbn [processedHoldings summary totalValue totalCost totalGainLoss].
  do 4 (split; [done|]). intros p Hin.
  destruct (Hall p Hin) as (? & ? & _ & ?). done.
Qed.

(** X15.  [calculatePortfolioValue] throws exactly when [holdings] is absent,
    or when there is a first holding and [currentPrices] is absent.  With an
    empty list of holdings it succeeds without a [currentPrices] object, with
    all totals at zero. *)
Theorem portfolio_value_errors (data : PortfolioData) :
  ((∃ e, calculatePortfolioValue data = Throw e)
   ↔ holdings data = None
     ∨ (currentPrices data = None ∧ ∃ h hs, holdings data = Some (h :: hs)))
  ∧ (holdings data = Some [] →
     ∃ r,
       calculatePortfolioValue data = Normal r
       ∧ processedHoldings r = []
       ∧ totalValue (summary r) = 0%float
       ∧ totalCost (summary r) = 0%float
       ∧ totalGainLoss (summary r) = 0%float
       ∧ totalGainLossPercent (summary r) = 0%float).
Proof.
  unfold calculatePortfolioValue. split.
  - destruct (holdings data) as [[|h hs]|] eqn:Hh.
    + cbn. split; [by intros [e ?]|]. intros [?|[_ (h & hs & ?)]]; done.
    + destruct (currentPrices data) as [prices|] eqn:Hp.
      * destruct (mapHoldings_run prices (h :: hs) (mkTotals 0 0 0))
          as (processed & totals & -> & _).
        split; [by intros [e ?]|]. intros [?|[? _]]; done.
      * cbn. split; [|by eauto]. intros _. right. by eauto.
    + split; [by left|by eauto].
  - intros ->. cbn. eexists. split; [reflexivity|]. by cbn.
Qed.

(** ** Not-a-number *)

Lemma isNaN_spec (x : float) : isNaN x = true ↔ Prim2SF x = S754_nan.
Proof.
  unfold isNaN. rewrite FloatAxioms.eqb_spec. unfold SFeqb.
  destruct (Prim2SF x) as [s|s| |s m e]; cbn.
  - done.
  - by destruct s.
  - done.
  - destruct s; rewrite Z.compare_refl, Pos.compare_cont_refl; done.
Qed.

Lemma nan_is_NaN : isNaN nan = true.
Proof. reflexivity. Qed.

(** [x - x] is [0] or [NaN], which are both falsy. *)
Lemma sub_self_falsy (x : float) : truthy (x - x) = false.
Proof.
  unfold truthy.
  assert (Hsub : Prim2SF (x - x) = S754_nan ∨ Prim2SF (x - x) = S754_zero false).
  { rewrite sub_spec. unfold SF64sub, SFsub.
    destruct (Prim2SF x) as [s|s| |s m e].
    - right. by destruct s.
    - left. by destruct s.
    - by left.
    - right. by rewrite Z.sub_diag. }
  destruct Hsub as [Hnan|Hzero].
  - rewrite (proj2 (isNaN_spec _) Hnan). apply andb_false_r.
  - by rewrite FloatAxioms.eqb_spec, Hzero, zero_spec.
Qed.

Lemma add_NaN (a b : float) : isNaN b = true → isNaN (a + b) = true.
Proof.
  rewrite !isNaN_spec, add_spec. intros ->. unfold SF64add, SFadd.
  by destruct (Prim2SF a).
Qed.

Lemma mul_NaN (a b : float) : isNaN a = true → isNaN (a * b) = true.
Proof.
  rewrite !isNaN_spec, mul_spec. intros ->. done.
Qed.

Lemma sub_NaN (a b : float) : isNaN b = true → isNaN (a - b) = true.
Proof.
  rewrite !isNaN_spec, sub_spec. intros ->. unfold SF64sub, SFsub.
  by destruct (Prim2SF a).
Qed.

(** ** Chart indicators *)

Lemma length_emaFrom multiplier previous rest :
  length (emaFrom multiplier previous rest) = length rest.
Proof.
  revert previous. induction rest as [|p rest IH]; intros previous; [done|].
  cbn. by rewrite IH.
Qed.

Lemma length_calculateEMA data period :
  length (calculateEMA data period) = length data.
Proof. destruct data; [done|]. cbn. by rewrite length_emaFrom. Qed.

(** Once an entry of the average is not a number, none of the later ones
    is. *)
Lemma emaFrom_NaN multiplier previous rest i entry :
  isNaN (toNumber previous) = true →
  emaFrom multiplier previous rest !! i = Some entry →
  ∃ y, entry = Some y ∧ isNaN y = true.
Proof.
  revert previous i. induction rest as [|p rest IH]; intros previous i Hnan; [done|].
  cbn [emaFrom].
  assert (Hnext : isNaN (toNumber (valueOf p) * multiplier
                         + toNumber previous * (1 - multiplier)) = true)
    by by apply add_NaN, mul_NaN.
  destruct i as [|i]; cbn.
  - intros [= <-]. by eauto.
  - by apply IH.
Qed.

(** The signal line over MACD values whose first one is falsy. *)
Lemma signal_line (macd0 : float) (later : list float) :
  truthy macd0 = false →
  at_index
    (calculateEMA ((λ value, mkPoint (Some value) None) <$> macd0 :: later) 9) 0
  = None
  ∧ ∀ j, j < length later →
      ∃ y,
        at_index
          (calculateEMA ((λ value, mkPoint (Some value) None) <$> macd0 :: later) 9)
          (S j)
        = Some y
        ∧ isNaN y = true.
Proof.
  intros Hfalsy. cbn [fmap list_fmap calculateEMA].
  assert (Hfirst : valueOf (mkPoint (Some macd0) None) = None).
  { unfold valueOf, or_else. cbn. by rewrite Hfalsy. }
  rewrite Hfirst. split; [done|]. intros j Hj. unfold at_index.
  change ((None :: ?l) !! S j) with (l !! j).
  match goal with
  | |- context [emaFrom ?m None ?points] =>
      destruct (emaFrom m None points !! j) as [s|] eqn:Hs
  end.
  - destruct (emaFrom_NaN _ None _ _ _ nan_is_NaN Hs) as (y & -> & Hy). by eauto.
  - apply lookup_ge_None in Hs. rewrite length_emaFrom, length_fmap in Hs. lia.
Qed.

(** The MACD line starts with the difference of a value with itself. *)
Lemma macd_line (first : Point) (rest : list Point) :
  ∃ later,
    imap (λ index value,
            (toNumber value
             - toNumber (at_index (calculateEMA (first :: rest) 26) index))%float)
         (calculateEMA (first :: rest) 12)
    = (toNumber (valueOf first) - toNumber (valueOf first))%float :: later
    ∧ length later = length rest.
Proof.
  cbn [calculateEMA imap]. eexists. split; [reflexivity|].
  by rewrite length_imap, length_emaFrom.
Qed.

(** X16.  The signal line of [calculateMACD] is never a number.  Both
    averages start from the same value, so the first MACD value is [0] or
    [NaN]; being falsy, it makes the first signal [undefined], and every
    later signal and every histogram value is [NaN], whatever the data. *)
Theorem macd_signal_is_never_a_number (data : list Point) :
  length (calculateMACD data) = length data
  ∧ ∀ i entry,
      calculateMACD data !! i = Some entry →
      isNaN (histogram entry) = true
      ∧ (i = 0 → truthy (macd entry) = false ∧ signal entry = None)
      ∧ (0 < i → ∃ s, signal entry = Some s ∧ isNaN s = true).
Proof.
  unfold calculateMACD. split.
  { by rewrite !length_imap, length_calculateEMA. }
  destruct data as [|first rest]; [done|].
  destruct (macd_line first rest) as (later & -> & Hlater).
  destruct (signal_line _ later (sub_self_falsy (toNumber (valueOf first))))
    as [Hsignal0 Hsignal].
  intros i entry. rewrite list_lookup_imap.
  intros (value & Hvalue & ->)%fmap_Some. cbn [histogram macd signal].
  destruct i as [|i].
  - injection Hvalue as <-. rewrite Hsignal0.
    split; [by apply sub_NaN|]. split; [|lia].
    intros _. split; [apply sub_self_falsy|done].
  - change (later !! i = Some value) in Hvalue.
    destruct (Hsignal i) as (y & -> & Hy); [by eapply lookup_lt_Some|].
    split; [by apply sub_NaN|]. split; [lia|by eauto].
Qed.

Lemma length_changes previous rest : length (changes previous rest) = length rest.
Proof.
  revert previous. induction rest as [|p rest IH]; intros previous; [done|].
  cbn. by rewrite IH.
Qed.

(** X17.  How the indicator series line up with the data.  A moving
    average and an exponential average have one entry for each point, the
    moving average being [null] exactly at the first [period - 1] points;
    the RSI series has [period] entries fewer than the data, and none when
    the data has no more than [period] points. *)
Theorem indicator_series_lengths (data : list Point) (period : nat) :
  length (movingAverage period data) = length data
  ∧ (∀ i, i < length data →
          (movingAverage period data !! i = Some None ↔ i < period - 1))
  ∧ (∀ p : float, length (calculateEMA data p) = length data)
  ∧ (1 ≤ period → length (calculateRSI data period) = length data - period).
Proof.
  split; [|split; [|split]].
  - unfold movingAverage. by rewrite length_fmap, length_seq.
  - intros i Hi. unfold movingAverage.
    rewrite list_lookup_fmap, lookup_seq_lt by done. cbn.
    case_decide; split; done.
  - intros p. apply length_calculateEMA.
  - intros Hperiod. unfold calculateRSI. rewrite length_fmap, length_seq.
    destruct data as [|first rest]; [done|].
    rewrite length_changes. cbn [length]. lia.
Qed.

Lemma changes_without_loss previous rest :
  (∀ i a b,
     (previous :: rest) !! i = Some a → (previous :: rest) !! S i = Some b →
     lt (toNumber (valueOf b) - toNumber (valueOf a)) 0 = false) →
  Forall (λ m : float * float, m.2 = 0%float) (changes previous rest).
Proof.
  revert previous. induction rest as [|p rest IH]; intros previous Hfalls;
    [by constructor|].
  cbn [changes]. constructor.
  - cbn [snd]. by rewrite (Hfalls 0 previous p).
  - apply IH. intros i a b Ha Hb. by apply (Hfalls (S i)).
Qed.

Lemma sum_of_zeros (l : list (float * float)) :
  Forall (λ m : float * float, m.2 = 0%float) l → sumBy snd l = 0%float.
Proof.
  unfold sumBy. induction 1 as [|m l Hm _ IH]; [done|].
  cbn [fold_left]. rewrite Hm.
  change (0 + 0)%float with 0%float. exact IH.
Qed.

(** X18.  On a series that never falls, a flat one included, every value of
    the RSI with the default period of 14 is exactly 100: the average loss
    of every window is zero, the case the function answers with 100. *)
Theorem rsi_of_series_that_never_falls (data : list Point) :
  (∀ i a b,
     data !! i = Some a → data !! S i = Some b →
     lt (toNumber (valueOf b) - toNumber (valueOf a)) 0 = false) →
  ∀ x, x ∈ calculateRSI data 14 → x = 100%float.
Proof.
  intros Hfalls x. unfold calculateRSI.
  intros (i & -> & _)%list_elem_of_fmap.
  assert (Hmoves : Forall (λ m : float * float, m.2 = 0%float)
            match data with [] => [] | first :: rest => changes first rest end).
  { destruct data as [|first rest]; [by constructor|].
    by apply changes_without_loss. }
  rewrite (sum_of_zeros (slice _ _ _)); [reflexivity|].
  unfold slice. by apply Forall_take, Forall_drop.
Qed.

(** ** Risk metrics *)

(** X19.  [calculateRiskMetrics] throws exactly when the portfolio, the
    market data or the [returns] of either is absent: the empty default for
    the portfolio's returns does not save the call, since [calculateBeta]
    reads the list itself.  With fewer than two returns the volatility is 0
    and beta is 1; with none, the value at risk and the drawdown are 0 and
    the risk level is low. *)
Theorem risk_metrics_errors_and_defaults (Math_pow : float → float → float)
    (Math_sqrt : float → float) (floorIndex : float → nat)
    (portfolio marketData : option ReturnSeries) :
  ((∃ e, calculateRiskMetrics Math_pow Math_sqrt floorIndex portfolio marketData
         = Throw e)
   ↔ portfolio = None ∨ marketData = None
     ∨ portfolio = Some (mkReturnSeries None)
     ∨ marketData = Some (mkReturnSeries None))
  ∧ (∀ rs ms,
       portfolio = Some (mkReturnSeries (Some rs)) →
       marketData = Some (mkReturnSeries (Some ms)) →
       length rs < 2 →
       ∃ r,
         calculateRiskMetrics Math_pow Math_sqrt floorIndex portfolio marketData
         = Normal r
         ∧ volatility r = 0%float
         ∧ beta r = 1%float
         ∧ (rs = [] →
            var95 r = 0%float ∧ var99 r = 0%float ∧ maxDrawdown r = 0%float
            ∧ riskLevel r = "low")).
Proof.
  split.
  - destruct portfolio as [[[rs|]]|], marketData as [[[ms|]]|]; cbn.
    all: try (split; [intros _; by eauto 6|by eauto]).
    all: try (split; [intros _; repeat (first [by left | right])|by eauto]).
    destruct (_ || _); (split; [by intros [e ?]|]);
      intros [?|[?|[?|?]]]; done.
  - intros rs ms -> -> Hlen. cbn.
    unfold calculateVolatility. rewrite decide_True by done.
    rewrite (bool_decide_true (length rs < 2)) by done. rewrite orb_true_r.
    eexists. split; [reflexivity|]. cbn.
    split; [done|]. split; [done|]. intros ->. by cbn.
Qed.

(** ** Exponential averages *)

Lemma emaFrom_NaN_after multiplier previous rest j k s e :
  emaFrom multiplier previous rest !! j = Some s →
  isNaN (toNumber s) = true →
  j < k →
  emaFrom multiplier previous rest !! k = Some e →
  ∃ y, e = Some y ∧ isNaN y = true.
Proof.
  revert previous j k. induction rest as [|p rest IH]; intros previous j k; [done|].
  cbn [emaFrom]. destruct k as [|k]; [lia|]. destruct j as [|j].
  - intros [= <-] Hnan _ He. change (emaFrom multiplier
      (Some (toNumber (valueOf p) * multiplier
             + toNumber previous * (1 - multiplier))%float) rest !! k = Some e) in He.
    by eapply emaFrom_NaN.
  - intros Hs Hnan Hjk He. eapply (IH _ j k); [exact Hs|done|lia|exact He].
Qed.

(** X20.  One entry that is not a number spoils the rest of an exponential
    average: when an entry of [calculateEMA] is [undefined] (a first point
    without value and price) or [NaN], every later entry is [NaN]. *)
Theorem ema_not_a_number_persists (data : list Point) (period : float) j k s e :
  calculateEMA data period !! j = Some s →
  isNaN (toNumber s) = true →
  j < k →
  calculateEMA data period !! k = Some e →
  ∃ y, e = Some y ∧ isNaN y = true.
Proof.
  destruct data as [|first rest]; [done|]. cbn [calculateEMA].
  destruct k as [|k]; [lia|]. destruct j as [|j].
  - intros [= <-] Hnan _ He.
    change (emaFrom (2 / (period + 1)) (valueOf first) rest !! k = Some e) in He.
    by eapply emaFrom_NaN.
  - intros Hs Hnan Hjk He.
    eapply (emaFrom_NaN_after _ _ _ j k); [exact Hs|done|lia|exact He].
Qed.

(** * The further properties on sample runs *)

(** X1 on a POST request, on a script and on a page, all while the network
    is down and nothing is cached. *)
Lemma fetch_listener_outcomes_sample :
  req_method sample_post ≠ "GET"
  ∧ onFetch network_down sample_post empty_world = (Normal PassThrough, empty_world)
  ∧ isStaticAsset (sample_get "/static/js/bundle.js" []) = true
  ∧ (∃ resp, (onFetch network_down (sample_get "/static/js/bundle.js" [])
                empty_world).1 = Normal (Responded (Some resp)))
  ∧ isHTMLRequest (sample_get "/dashboard" [("accept", "text/html")]) = Normal true
  ∧ (onFetch network_down (sample_get "/dashboard" [("accept", "text/html")])
       empty_world).1 = Normal (Responded None).
Proof.
  destruct (fetch_listener_outcomes network_down
              (sample_get "/static/js/bundle.js" []) empty_world)
    as (_ & _ & _ & Hanswer & Hscript).
  destruct (fetch_listener_outcomes network_down
              (sample_get "/dashboard" [("accept", "text/html")]) empty_world)
    as (_ & _ & _ & _ & Hundefined).
  split; [discriminate|]. split; [reflexivity|]. split; [reflexivity|]. split.
  { destruct Hanswer as [[resp|] Hresp];
      [reflexivity|left; reflexivity|by exists resp|].
    apply Hscript in Hresp as (_ & Hstatic & _). discriminate Hstatic. }
  split; [reflexivity|].
  apply Hundefined. do 5 (split; [reflexivity|]). eexists. reflexivity.
Defined.

(** X2 on a page outside the API namespace. *)
Lemma default_branch_offline_is_generic_sample :
  isAPIRequest (sample_get "/dashboard" []) = false
  ∧ network_down (sample_get "/dashboard" []) = NetFailure (TypeError "Failed to fetch")
  ∧ caches_match (request_key (sample_get "/dashboard" [])) (caches empty_world) = None
  ∧ (networkFirst network_down (sample_get "/dashboard" []) empty_world).1
    = Normal offlineResponse.
Proof.
  split; [reflexivity|]. split; [reflexivity|]. split; [reflexivity|].
  exact (proj2 (default_branch_offline_is_generic network_down
                  (sample_get "/dashboard" []) empty_world _
                  eq_refl eq_refl eq_refl)).
Defined.

(** X3 on an API request answered once, then offline. *)
Lemma network_first_round_trip_sample :
  held_only_in API_CACHE (request_key (sample_get "/api/portfolio" []))
    (caches empty_world) = true
  ∧ ok response_200 = true
  ∧ (networkFirst network_down (sample_get "/api/portfolio" [])
       (networkFirst network_up (sample_get "/api/portfolio" []) empty_world).2).1
    = Normal response_200.
Proof.
  split; [reflexivity|]. split; [reflexivity|].
  exact (network_first_round_trip network_up network_down
           (sample_get "/api/portfolio" []) empty_world response_200 _
           eq_refl eq_refl eq_refl eq_refl).
Defined.

(** X4 on a script fetched once, then asked again while offline. *)
Lemma cache_first_fetches_once_sample :
  caches_match (request_key (sample_get "/static/js/bundle.js" []))
    (caches empty_world) = None
  ∧ ok response_200 = true
  ∧ fetched (trace (cacheFirst network_down (sample_get "/static/js/bundle.js" [])
                      (cacheFirst network_up (sample_get "/static/js/bundle.js" [])
                         empty_world).2).2)
    = [sample_get "/static/js/bundle.js" []].
Proof.
  split; [reflexivity|]. split; [reflexivity|].
  exact (proj2 (cache_first_fetches_once network_up network_down
                  (sample_get "/static/js/bundle.js" []) empty_world response_200
                  eq_refl eq_refl eq_refl)).
Defined.

(** X5 on a page asked twice, the network answering differently. *)
Lemma revalidation_serves_previous_response_sample :
  cache_match DYNAMIC_CACHE
    (request_key (sample_get "/dashboard" [("accept", "text/html")]))
    (caches empty_world) = None
  ∧ ok response_200 = true ∧ ok response_newer = true
  ∧ (respondWithRevalidation
       (staleWhileRevalidate network_newer
          (sample_get "/dashboard" [("accept", "text/html")]))
       (respondWithRevalidation
          (staleWhileRevalidate network_up
             (sample_get "/dashboard" [("accept", "text/html")]))
          empty_world).2).1
    = Normal (Responded (Some response_200)).
Proof.
  split; [reflexivity|]. split; [reflexivity|]. split; [reflexivity|].
  exact (proj1 (revalidation_serves_previous_response network_up network_newer
                  (sample_get "/dashboard" [("accept", "text/html")]) empty_world
                  response_200 response_newer
                  eq_refl eq_refl eq_refl eq_refl eq_refl)).
Defined.

(** X6 on a script: the API tier is not touched. *)
Lemma fetch_changes_one_tier_sample :
  classify (sample_get "/static/js/bundle.js" []) = Normal (Some CacheFirst)
  ∧ API_CACHE ≠ tier_of CacheFirst
  ∧ cache_lookup API_CACHE
      (caches (onFetch network_up (sample_get "/static/js/bundle.js" [])
                 empty_world).2)
    = cache_lookup API_CACHE (caches empty_world).
Proof.
  split; [reflexivity|]. split; [discriminate|].
  apply (proj1 (fetch_changes_one_tier network_up
                  (sample_get "/static/js/bundle.js" []) empty_world) CacheFirst);
    [reflexivity|discriminate].
Defined.


(** X9 on a navigation to the shell page after an install from nothing. *)
Lemma installed_shell_not_served_to_navigations_sample :
  classify (sample_get "/index.html" [("accept", "text/html")])
  = Normal (Some StaleWhileRevalidate)
  ∧ cache_match DYNAMIC_CACHE
      (request_key (sample_get "/index.html" [("accept", "text/html")]))
      (caches empty_world) = None
  ∧ (onFetch network_down (sample_get "/index.html" [("accept", "text/html")])
       (onInstall sample_origin network_up empty_world).2).1
    = Normal (Responded None).
Proof.
  split; [reflexivity|]. split; [reflexivity|].
  exact (installed_shell_not_served_to_navigations sample_origin network_up
           network_down empty_world
           (sample_get "/index.html" [("accept", "text/html")]) _
           eq_refl eq_refl eq_refl).
Defined.

(** X10 on one URL, offline and online. *)
Lemma cache_urls_all_or_nothing_sample :
  NoDup ["/api/stocks/market-status"]
  ∧ answered_ok network_down
      (asset_request sample_origin "/api/stocks/market-status") = false
  ∧ (onClientMessage sample_origin network_down
       (Some (mkClientMessage "CACHE_URLS" (Some ["/api/stocks/market-status"])))
       empty_world).1
    = Throw (TypeError "Request failed")
  ∧ (onClientMessage sample_origin network_up
       (Some (mkClientMessage "CACHE_URLS" (Some ["/api/stocks/market-status"])))
       empty_world).1
    = Normal tt.
Proof.
  assert (Hnd : NoDup ["/api/stocks/market-status"]) by by_computation.
  assert (Hin : "/api/stocks/market-status" ∈ ["/api/stocks/market-status"])
    by by_computation.
  destruct (cache_urls_all_or_nothing sample_origin network_down empty_world
              ["/api/stocks/market-status"] Hnd) as (Hfail & _ & _).
  destruct (cache_urls_all_or_nothing sample_origin network_up empty_world
              ["/api/stocks/market-status"] Hnd) as (_ & Hok & _).
  split; [exact Hnd|]. split; [reflexivity|]. split.
  - exact (proj1 (Hfail _ Hin eq_refl)).
  - exact (proj1 (Hok (λ _ _, eq_refl))).
Defined.

(** X11 on the sample market: two gainers, one loser, one unchanged. *)
Lemma market_statistics_consistent_sample :
  ∃ r,
    processMarketData (Some sample_market) = Normal r
    ∧ gainers (statistics r) = 2 ∧ losers (statistics r) = 1
    ∧ unchanged (statistics r) = 1%Z
    ∧ length (topGainers r) = 2.
Proof.
  destruct (market_statistics_consistent sample_market)
    as (r & Hrun & _ & _ & _ & Htop & _).
  exists r. split; [exact Hrun|].
  injection Hrun as <-. repeat split; vm_compute; reflexivity.
Defined.

(** X12 on the sample market: the stock without figures is neutral. *)
Lemma trend_summary_counts_every_stock_sample :
  ∃ r,
    analyzeStockTrends (Some sample_market) = Normal r
    ∧ bullish (trendSummary r) + bearish (trendSummary r)
      + neutral (trendSummary r) = 4
    ∧ neutral (trendSummary r) = 1.
Proof.
  destruct (trend_summary_counts_every_stock sample_market)
    as (r & Hrun & _ & Hsum & _).
  exists r. split; [exact Hrun|]. split; [exact Hsum|].
  injection Hrun as <-. vm_compute. reflexivity.
Defined.

(** X13 on the sample watchlist: the item without a stock is dropped. *)
Lemma watchlist_analysis_consistent_sample :
  ∃ r,
    processWatchlistAnalysis (Some sample_watchlist) (Some sample_market) = Normal r
    ∧ entry_item <$> items r = [mkWatchlistItem "C"; mkWatchlistItem "B"]
    ∧ totalAlerts (watchlistSummary r) = 3.
Proof.
  destruct (watchlist_analysis_consistent sample_watchlist sample_market)
    as (r & Hrun & Hitems & _).
  exists r. split; [exact Hrun|]. split; [rewrite Hitems; reflexivity|].
  injection Hrun as <-. vm_compute. reflexivity.
Defined.

(** X14 on the holding of the example with an empty price table. *)
Lemma portfolio_totals_sum_the_holdings_sample :
  Forall (λ h, symbol h ∉ OBJECT_PROTOTYPE_NAMES) [holdingX]
  ∧ ∃ r,
    calculatePortfolioValue (mkPortfolioData (Some [holdingX]) (Some no_prices) None)
    = Normal r
    ∧ holding <$> processedHoldings r = [holdingX]
    ∧ totalValue (summary r) = sumBy currentValue (processedHoldings r).
Proof.
  assert (Hsymbols : Forall (λ h, symbol h ∉ OBJECT_PROTOTYPE_NAMES) [holdingX])
    by by_computation.
  split; [exact Hsymbols|].
  destruct (portfolio_totals_sum_the_holdings
              (mkPortfolioData (Some [holdingX]) (Some no_prices) None)
              [holdingX] no_prices eq_refl eq_refl Hsymbols)
    as (r & Hrun & Hholdings & Hvalue & _).
  exists r. split; [exact Hrun|]. split; [exact Hholdings|exact Hvalue].
Defined.

(** X15 on data with an empty list of holdings and nothing else. *)
Lemma portfolio_value_errors_sample :
  holdings (mkPortfolioData (Some []) None None) = Some []
  ∧ ∃ r,
      calculatePortfolioValue (mkPortfolioData (Some []) None None) = Normal r
      ∧ totalValue (summary r) = 0%float.
Proof.
  split; [reflexivity|].
  destruct (proj2 (portfolio_value_errors (mkPortfolioData (Some []) None None))
              eq_refl) as (r & Hrun & _ & Hvalue & _).
  exists r. split; [exact Hrun|exact Hvalue].
Defined.

(** X16 on a rising series of three points. *)
Lemma macd_signal_is_never_a_number_sample :
  ∃ entry,
    calculateMACD rising_series !! 1 = Some entry
    ∧ isNaN (histogram entry) = true
    ∧ ∃ s, signal entry = Some s ∧ isNaN s = true.
Proof.
  destruct (calculateMACD rising_series !! 1) as [entry|] eqn:Hentry;
    [|exfalso; vm_compute in Hentry; discriminate].
  destruct (proj2 (macd_signal_is_never_a_number rising_series) 1 entry Hentry)
    as (Hhistogram & _ & Hsignal).
  exists entry. split; [reflexivity|]. split; [exact Hhistogram|].
  apply Hsignal. lia.
Defined.

(** X17 on sixteen points with the default period of the RSI. *)
Lemma indicator_series_lengths_sample :
  1 ≤ 14
  ∧ length (calculateRSI flat_series 14) = 2
  ∧ length (movingAverage 5 flat_series) = 16.
Proof.
  destruct (indicator_series_lengths flat_series 14) as (_ & _ & _ & Hrsi).
  destruct (indicator_series_lengths flat_series 5) as (Hma & _).
  split; [lia|]. split; [rewrite Hrsi by lia; reflexivity|exact Hma].
Defined.

(** X18 on the flat series. *)
Lemma rsi_of_series_that_never_falls_sample :
  (∀ i a b,
     flat_series !! i = Some a → flat_series !! S i = Some b →
     lt (toNumber (valueOf b) - toNumber (valueOf a)) 0 = false)
  ∧ ∀ x, x ∈ calculateRSI flat_series 14 → x = 100%float.
Proof.
  assert (Hflat : ∀ i a b,
     flat_series !! i = Some a → flat_series !! S i = Some b →
     lt (toNumber (valueOf b) - toNumber (valueOf a)) 0 = false).
  { unfold flat_series. intros i a b [-> _]%lookup_replicate [-> _]%lookup_replicate.
    reflexivity. }
  split; [exact Hflat|].
  exact (rsi_of_series_that_never_falls flat_series Hflat).
Defined.

(** X19 on a portfolio without returns and on a portfolio with one return. *)
Lemma risk_metrics_errors_and_defaults_sample :
  (∃ e, calculateRiskMetrics sample_pow PrimFloat.sqrt sample_floorIndex
          (Some (mkReturnSeries None)) (Some (mkReturnSeries (Some [])))
        = Throw e)
  ∧ ∃ r,
      calculateRiskMetrics sample_pow PrimFloat.sqrt sample_floorIndex
        (Some (mkReturnSeries (Some [1%float])))
        (Some (mkReturnSeries (Some [2%float])))
      = Normal r
      ∧ volatility r = 0%float ∧ beta r = 1%float.
Proof.
  split.
  - apply (proj1 (risk_metrics_errors_and_defaults sample_pow PrimFloat.sqrt
                    sample_floorIndex (Some (mkReturnSeries None))
                    (Some (mkReturnSeries (Some []))))).
    right. right. left. reflexivity.
  - destruct (proj2 (risk_metrics_errors_and_defaults sample_pow PrimFloat.sqrt
                       sample_floorIndex (Some (mkReturnSeries (Some [1%float])))
                       (Some (mkReturnSeries (Some [2%float]))))
                _ _ eq_refl eq_refl (le_n 2)) as (r & Hrun & Hv & Hb & _).
    exists r. split; [exact Hrun|]. split; [exact Hv|exact Hb].
Defined.

(** X20 on a series whose first point has neither value nor price. *)
Lemma ema_not_a_number_persists_sample :
  calculateEMA (mkPoint None None :: rising_series) 12 !! 0 = Some None
  ∧ isNaN (toNumber None) = true
  ∧ 0 < 3
  ∧ ∃ e y,
      calculateEMA (mkPoint None None :: rising_series) 12 !! 3 = Some e
      ∧ e = Some y ∧ isNaN y = true.
Proof.
  split; [reflexivity|]. split; [reflexivity|]. split; [lia|].
  destruct (calculateEMA (mkPoint None None :: rising_series) 12 !! 3)
    as [e|] eqn:He; [|exfalso; vm_compute in He; discriminate].
  destruct (ema_not_a_number_persists (mkPoint None None :: rising_series) 12
              0 3 None e eq_refl eq_refl (Nat.lt_0_succ 2) He) as (y & Hy & Hnan).
  exists e, y. split; [reflexivity|]. split; [exact Hy|exact Hnan].
Defined.
